(** * ImmuneSystemTwinFHE: a shallow embedding of the contract

    The Solidity contract [ImmuneSystemTwinFHE] (the second document of
    [src/frontend/web/src/App.tsx]) is modelled as explicit state passing
    over its storage.  Every external or public function is a computation in
    a small state-and-revert monad; a transaction either commits its storage
    and its events, or reverts with an error and leaves storage untouched.

    Conventions:
    - [uint256] and [address] values are [N]; arithmetic is the checked
      arithmetic of Solidity 0.8 (an overflow reverts with [Panic 0x11]);
    - a Solidity [mapping] is a [gmap] read with the zero value as default;
    - the FHE library, the decryption oracle and [keccak256] are external
      capabilities, taken as the operations of the class [External]. *)

From Stdlib Require Import NArith Lia.
From Stdlib.Strings Require Import Byte.
From stdpp Require Import gmap list.

Local Open Scope N_scope.

(** ** Basic types *)

Abbreviation address := N (only parsing).
Abbreviation uint256 := N (only parsing).
Abbreviation bytes32 := N (only parsing).
(** [euint32] is an opaque ciphertext handle. *)
Abbreviation euint32 := N (only parsing).

Definition UINT256_MAX : N := 2 ^ 256 - 1.

(** The capabilities the contract consumes but does not define.  Each is
    taken as a total function of its arguments: the library calls are
    assumed not to revert, and [fheAdd], [asEuint32] and [keccak256] to be
    deterministic. *)
Class External := {
  (** state of the FHE library and of the decryption oracle *)
  Oracle : Type;
  (** [FHE.asEuint32] *)
  asEuint32 : N → euint32;
  (** [euint32.fheAdd] *)
  fheAdd : euint32 → euint32 → euint32;
  (** [euint32.toBytes32] *)
  toBytes32 : euint32 → bytes32;
  (** [euint32.isInitialized] *)
  isInitialized : euint32 → bool;
  (** [FHE.requestDecryption(cts, selector)]: the request id it issues and
      the library state it leaves *)
  requestDecryption : Oracle → list bytes32 → N → uint256 * Oracle;
  (** [FHE.checkSignatures(requestId, cleartexts, proof)] *)
  checkSignatures : Oracle → uint256 → list byte → list byte → bool;
  (** [keccak256(abi.encode(cts, addr))] *)
  keccak256_encode : list bytes32 → address → bytes32;
  (** [address(this)] *)
  this : address;
  (** [this.myCallback.selector] *)
  myCallback_selector : N;
}.

(** ** Storage *)

Record Batch := mkBatch {
  id : uint256;
  totalEncryptedDataPoints : uint256;
  closed : bool;
}.

Record EncryptedImmuneData := mkData {
  antigenAffinity : euint32;
  antibodyCount : euint32;
  tCellEffectiveness : euint32;
}.

Record DecryptionContext := mkContext {
  batchId : uint256;
  stateHash : bytes32;
  processed : bool;
}.

Inductive event :=
| OwnershipTransferred (previousOwner newOwner : address)
| ProviderAdded (provider : address)
| ProviderRemoved (provider : address)
| ContractPaused (account : address)
| ContractUnpaused (account : address)
| CooldownSecondsSet (oldCooldownSeconds newCooldownSeconds : uint256)
| BatchOpened (batch : uint256)
| BatchClosed (batch : uint256) (total : uint256)
| DataSubmitted (provider : address) (batch : uint256) (dataCount : uint256)
| DecryptionRequested (requestId : uint256) (batch : uint256) (hash : bytes32)
| DecryptionCompleted (requestId : uint256) (batch : uint256) (results : list uint256).

(** The contract's ten custom errors, and the compiler's [Panic(code)]. *)
Inductive error :=
| NotOwner
| NotProvider
| Paused
| CooldownActive
| BatchClosedOrInvalid
| InvalidBatchId
| ReplayAttempt
| StateMismatch
| InvalidProof
| NotInitialized
| Panic (code : N).

(** [Panic(0x11)]: arithmetic overflow; [Panic(0x32)]: array index out of
    bounds. *)
Definition ARITHMETIC_OVERFLOW : N := 17.
Definition INDEX_OUT_OF_BOUNDS : N := 50.

(** What a transaction sees of its environment. *)
Record env := mkEnv {
  msg_sender : address;
  block_timestamp : uint256;
  (** the memory that follows the [cleartexts] array of a callback; the
      three [mload]s of [myCallback] read it when [cleartexts] is shorter
      than 96 bytes *)
  memory_tail : list byte;
}.

(** The zero values a mapping yields at a key never written. *)
Definition zeroBatch : Batch := mkBatch 0 0 false.
Definition zeroContext : DecryptionContext := mkContext 0 0 false.

(** Reading [m[k]] from a mapping. *)
Definition rd {V : Type} (d : V) (m : gmap N V) (k : N) : V := default d (m !! k).

Section Contract.
Context {X : External}.

Record storage := mkStorage {
  owner : address;
  isProvider : gmap N bool;
  paused : bool;
  cooldownSeconds : uint256;
  lastSubmissionTime : gmap N uint256;
  lastDecryptionRequestTime : gmap N uint256;
  currentBatchId : uint256;
  batches : gmap N Batch;
  batchEncryptedData : gmap N (list EncryptedImmuneData);
  decryptionContexts : gmap N DecryptionContext;
  fhe : Oracle;
}.

Definition set_owner (v : address) (s : storage) : storage :=
  let 'mkStorage _ b c d e f g h i j k := s in mkStorage v b c d e f g h i j k.
Definition set_isProvider (v : gmap N bool) (s : storage) : storage :=
  let 'mkStorage a _ c d e f g h i j k := s in mkStorage a v c d e f g h i j k.
Definition set_paused (v : bool) (s : storage) : storage :=
  let 'mkStorage a b _ d e f g h i j k := s in mkStorage a b v d e f g h i j k.
Definition set_cooldownSeconds (v : uint256) (s : storage) : storage :=
  let 'mkStorage a b c _ e f g h i j k := s in mkStorage a b c v e f g h i j k.
Definition set_lastSubmissionTime (v : gmap N uint256) (s : storage) : storage :=
  let 'mkStorage a b c d _ f g h i j k := s in mkStorage a b c d v f g h i j k.
Definition set_lastDecryptionRequestTime (v : gmap N uint256) (s : storage) : storage :=
  let 'mkStorage a b c d e _ g h i j k := s in mkStorage a b c d e v g h i j k.
Definition set_currentBatchId (v : uint256) (s : storage) : storage :=
  let 'mkStorage a b c d e f _ h i j k := s in mkStorage a b c d e f v h i j k.
Definition set_batches (v : gmap N Batch) (s : storage) : storage :=
  let 'mkStorage a b c d e f g _ i j k := s in mkStorage a b c d e f g v i j k.
Definition set_batchEncryptedData (v : gmap N (list EncryptedImmuneData)) (s : storage) : storage :=
  let 'mkStorage a b c d e f g h _ j k := s in mkStorage a b c d e f g h v j k.
Definition set_decryptionContexts (v : gmap N DecryptionContext) (s : storage) : storage :=
  let 'mkStorage a b c d e f g h i _ k := s in mkStorage a b c d e f g h i v k.
Definition set_fhe (v : Oracle) (s : storage) : storage :=
  let 'mkStorage a b c d e f g h i j _ := s in mkStorage a b c d e f g h i j v.

(** ** The execution monad: storage and event log, or a revert *)

Inductive result (A : Type) :=
| Ok (a : A) (s : storage) (log : list event)
| Err (e : error).
Global Arguments Ok {A} a s log.
Global Arguments Err {A} e.

Definition M (A : Type) : Type := storage → list event → result A.

Global Instance M_ret : MRet M := λ A a s log, Ok a s log.
Global Instance M_bind : MBind M := λ A B f m s log,
  match m s log with
  | Ok a s' log' => f a s' log'
  | Err e => Err e
  end.

Definition gets {A : Type} (f : storage → A) : M A := λ s log, Ok (f s) s log.
Definition modify (f : storage → storage) : M unit := λ s log, Ok tt (f s) log.
Definition emit (ev : event) : M unit := λ s log, Ok tt s (log ++ [ev]).
Definition revert {A : Type} (e : error) : M A := λ _ _, Err e.

(** [if (c) revert e();] *)
Definition revert_if (c : bool) (e : error) : M unit :=
  if c then revert e else mret tt.

(** Checked [a + b] on [uint256]. *)
Definition checked_add (a b : uint256) : M uint256 :=
  if a + b <=? UINT256_MAX then mret (a + b) else revert (Panic ARITHMETIC_OVERFLOW).

(** ** Modifiers *)

Definition onlyOwner (e : env) : M unit :=
  o ← gets owner;
  revert_if (negb (msg_sender e =? o)) NotOwner.

Definition onlyProvider (e : env) : M unit :=
  p ← gets (λ s, rd false (isProvider s) (msg_sender e));
  revert_if (negb p) NotProvider.

Definition whenNotPaused : M unit :=
  p ← gets paused;
  revert_if p Paused.

Definition checkSubmissionCooldown (e : env) : M unit :=
  last ← gets (λ s, rd 0 (lastSubmissionTime s) (msg_sender e));
  cd ← gets cooldownSeconds;
  limit ← checked_add last cd;
  revert_if (block_timestamp e <? limit) CooldownActive.

Definition checkDecryptionCooldown (e : env) : M unit :=
  last ← gets (λ s, rd 0 (lastDecryptionRequestTime s) (msg_sender e));
  cd ← gets cooldownSeconds;
  limit ← checked_add last cd;
  revert_if (block_timestamp e <? limit) CooldownActive.

(** ** Functions *)

Definition constructor (deployer : address) (o : Oracle) : storage * list event :=
  (mkStorage deployer ∅ false 0 ∅ ∅ 0 ∅ ∅ ∅ o,
   [OwnershipTransferred 0 deployer]).

Definition transferOwnership (e : env) (newOwner : address) : M unit :=
  onlyOwner e;;
  previousOwner ← gets owner;
  modify (set_owner newOwner);;
  emit (OwnershipTransferred previousOwner newOwner).

Definition addProvider (e : env) (provider : address) : M unit :=
  onlyOwner e;;
  p ← gets (λ s, rd false (isProvider s) provider);
  if negb p then
    modify (λ s, set_isProvider (<[provider := true]> (isProvider s)) s);;
    emit (ProviderAdded provider)
  else mret tt.

Definition removeProvider (e : env) (provider : address) : M unit :=
  onlyOwner e;;
  p ← gets (λ s, rd false (isProvider s) provider);
  if (p : bool) then
    modify (λ s, set_isProvider (<[provider := false]> (isProvider s)) s);;
    emit (ProviderRemoved provider)
  else mret tt.

Definition setPaused (e : env) (_paused : bool) : M unit :=
  onlyOwner e;;
  p ← gets paused;
  if negb (eqb _paused p) then
    modify (set_paused _paused);;
    if _paused then emit (ContractPaused (msg_sender e))
    else emit (ContractUnpaused (msg_sender e))
  else mret tt.

Definition setCooldownSeconds (e : env) (newCooldownSeconds : uint256) : M unit :=
  onlyOwner e;;
  oldCooldownSeconds ← gets cooldownSeconds;
  modify (set_cooldownSeconds newCooldownSeconds);;
  emit (CooldownSecondsSet oldCooldownSeconds newCooldownSeconds).

Definition openBatch (e : env) : M unit :=
  onlyOwner e;;
  whenNotPaused;;
  cur ← gets currentBatchId;
  next ← checked_add cur 1;
  modify (set_currentBatchId next);;
  modify (λ s, set_batches (<[next := mkBatch next 0 false]> (batches s)) s);;
  emit (BatchOpened next).

Definition closeBatch (e : env) (batchId : uint256) : M unit :=
  onlyOwner e;;
  whenNotPaused;;
  cur ← gets currentBatchId;
  batch ← gets (λ s, rd zeroBatch (batches s) batchId);
  revert_if ((batchId =? 0) || (cur <? batchId) || closed batch) InvalidBatchId;;
  modify (λ s, set_batches
    (<[batchId := mkBatch (id batch) (totalEncryptedDataPoints batch) true]> (batches s)) s);;
  emit (BatchClosed batchId (totalEncryptedDataPoints batch)).

Definition _initIfNeeded (x : euint32) : M unit :=
  revert_if (negb (isInitialized x)) NotInitialized.

Definition submitEncryptedData (e : env)
    (antigenAffinity antibodyCount tCellEffectiveness : euint32) : M unit :=
  onlyProvider e;;
  whenNotPaused;;
  checkSubmissionCooldown e;;
  _initIfNeeded antigenAffinity;;
  _initIfNeeded antibodyCount;;
  _initIfNeeded tCellEffectiveness;;
  cur ← gets currentBatchId;
  batch ← gets (λ s, rd zeroBatch (batches s) cur);
  revert_if (closed batch) BatchClosedOrInvalid;;
  modify (λ s, set_batchEncryptedData
    (<[cur := rd [] (batchEncryptedData s) cur
              ++ [mkData antigenAffinity antibodyCount tCellEffectiveness]]>
       (batchEncryptedData s)) s);;
  total ← checked_add (totalEncryptedDataPoints batch) 1;
  modify (λ s, set_batches (<[cur := mkBatch (id batch) total (closed batch)]> (batches s)) s);;
  modify (λ s, set_lastSubmissionTime
    (<[msg_sender e := block_timestamp e]> (lastSubmissionTime s)) s);;
  emit (DataSubmitted (msg_sender e) cur 1).

(** The three running totals of an aggregation loop. *)
Record totals := mkTotals {
  totalAntigenAffinity : euint32;
  totalAntibodyCount : euint32;
  totalTCellEffectiveness : euint32;
}.

(** One iteration of the body shared by the two aggregation loops:
    [data = batchEncryptedData[batchId][i]], then three [fheAdd]s. *)
Definition loop_body (batchId : uint256) (i : nat) (t : totals) : M totals :=
  arr ← gets (λ s, rd [] (batchEncryptedData s) batchId);
  match arr !! i with
  | None => revert (Panic INDEX_OUT_OF_BOUNDS)
  | Some data =>
      mret (mkTotals (fheAdd (totalAntigenAffinity t) (antigenAffinity data))
                     (fheAdd (totalAntibodyCount t) (antibodyCount data))
                     (fheAdd (totalTCellEffectiveness t) (tCellEffectiveness data)))
  end.

(** [for (i; i < dataCount; ++i) body], with [remaining = dataCount - i]. *)
Fixpoint requestBatchAnalysis_loop (batchId : uint256) (i remaining : nat) (t : totals)
    : M totals :=
  match remaining with
  | O => mret t
  | S r => t' ← loop_body batchId i t; requestBatchAnalysis_loop batchId (S i) r t'
  end.

Fixpoint myCallback_loop (batchId : uint256) (i remaining : nat) (t : totals) : M totals :=
  match remaining with
  | O => mret t
  | S r => t' ← loop_body batchId i t; myCallback_loop batchId (S i) r t'
  end.

Definition _hashCiphertexts (cts : list bytes32) : bytes32 :=
  keccak256_encode cts this.

Definition requestBatchAnalysis (e : env) (batchId : uint256) : M unit :=
  onlyOwner e;;
  whenNotPaused;;
  checkDecryptionCooldown e;;
  cur ← gets currentBatchId;
  batch ← gets (λ s, rd zeroBatch (batches s) batchId);
  revert_if ((batchId =? 0) || (cur <? batchId) || negb (closed batch)) InvalidBatchId;;
  revert_if (totalEncryptedDataPoints batch =? 0) InvalidBatchId;;
  dataCount ← gets (λ s, length (rd [] (batchEncryptedData s) batchId));
  t ← requestBatchAnalysis_loop batchId 0 dataCount
        (mkTotals (asEuint32 0) (asEuint32 0) (asEuint32 0));
  let cts := [toBytes32 (totalAntigenAffinity t);
              toBytes32 (totalAntibodyCount t);
              toBytes32 (totalTCellEffectiveness t)] in
  let stateHash := _hashCiphertexts cts in
  o ← gets fhe;
  let '(requestId, o') := requestDecryption o cts myCallback_selector in
  modify (set_fhe o');;
  modify (λ s, set_decryptionContexts
    (<[requestId := mkContext batchId stateHash false]> (decryptionContexts s)) s);;
  modify (λ s, set_lastDecryptionRequestTime
    (<[msg_sender e := block_timestamp e]> (lastDecryptionRequestTime s)) s);;
  emit (DecryptionRequested requestId batchId stateHash).

(** ** Memory reads of the callback *)

(** The big-endian value of a byte string. *)
Definition be_value (bs : list byte) : N :=
  fold_left (λ acc b, acc * 256 + Byte.to_N b) bs 0.

(** [mload(p + off)] where [mem] is the memory from [p] on; memory past the
    end of [mem] reads as zero. *)
Definition mload (mem : list byte) (off : nat) : uint256 :=
  be_value (take 32 (drop off mem ++ replicate 32 x00)).

(** The 32-byte length word that heads a [bytes memory] array. *)
Fixpoint be_bytes (width : nat) (n : N) : list byte :=
  match width with
  | O => []
  | S w => be_bytes w (n / 256) ++ [default x00 (Byte.of_N (n mod 256))]
  end.

(** The local [Batch storage batch = batches[ctx.batchId]] of the source is
    never read and is left out. *)
Definition myCallback (e : env) (requestId : uint256) (cleartexts proof : list byte)
    : M unit :=
  ctx ← gets (λ s, rd zeroContext (decryptionContexts s) requestId);
  revert_if (processed ctx) ReplayAttempt;;
  dataCount ← gets (λ s, length (rd [] (batchEncryptedData s) (batchId ctx)));
  t ← myCallback_loop (batchId ctx) 0 dataCount
        (mkTotals (asEuint32 0) (asEuint32 0) (asEuint32 0));
  let currentCts := [toBytes32 (totalAntigenAffinity t);
                     toBytes32 (totalAntibodyCount t);
                     toBytes32 (totalTCellEffectiveness t)] in
  let currentStateHash := _hashCiphertexts currentCts in
  revert_if (negb (currentStateHash =? stateHash ctx)) StateMismatch;;
  o ← gets fhe;
  revert_if (negb (checkSignatures o requestId cleartexts proof)) InvalidProof;;
  let mem := be_bytes 32 (N.of_nat (length cleartexts)) ++ cleartexts ++ memory_tail e in
  let results := [mload mem 32; mload mem 64; mload mem 96] in
  modify (λ s, set_decryptionContexts
    (<[requestId := mkContext (batchId ctx) (stateHash ctx) true]> (decryptionContexts s)) s);;
  emit (DecryptionCompleted requestId (batchId ctx) results).

(** ** Transactions *)

Inductive call :=
| TransferOwnership (newOwner : address)
| AddProvider (provider : address)
| RemoveProvider (provider : address)
| SetPaused (_paused : bool)
| SetCooldownSeconds (newCooldownSeconds : uint256)
| OpenBatch
| CloseBatch (batch : uint256)
| SubmitEncryptedData (a b c : euint32)
| RequestBatchAnalysis (batch : uint256)
| MyCallback (requestId : uint256) (cleartexts proof : list byte).

Definition dispatch (e : env) (c : call) : M unit :=
  match c with
  | TransferOwnership newOwner => transferOwnership e newOwner
  | AddProvider p => addProvider e p
  | RemoveProvider p => removeProvider e p
  | SetPaused b => setPaused e b
  | SetCooldownSeconds n => setCooldownSeconds e n
  | OpenBatch => openBatch e
  | CloseBatch b => closeBatch e b
  | SubmitEncryptedData a b c => submitEncryptedData e a b c
  | RequestBatchAnalysis b => requestBatchAnalysis e b
  | MyCallback r ct pf => myCallback e r ct pf
  end.

(** The outcome of a transaction: committed storage and emitted events,
    or the error it reverted with. *)
Inductive outcome :=
| Success (s' : storage) (events : list event)
| Reverted (err : error).

Definition exec (e : env) (c : call) (s : storage) : outcome :=
  match dispatch e c s [] with
  | Ok _ s' log => Success s' log
  | Err err => Reverted err
  end.

(** The storage after the transaction: a revert undoes every write. *)
Definition step (e : env) (c : call) (s : storage) : storage :=
  match exec e c s with
  | Success s' _ => s'
  | Reverted _ => s
  end.

Fixpoint run (s : storage) (tr : list (env * call)) : storage :=
  match tr with
  | [] => s
  | (e, c) :: tr' => run (step e c s) tr'
  end.

End Contract.

(** ** The aggregate, as the specification words it *)

Section Aggregate.
Context {X : External}.

(** The left-to-right homomorphic sum of one field over a record list,
    starting from the encryption of zero. *)
Definition homomorphic_sum (field : EncryptedImmuneData → euint32)
    (records : list EncryptedImmuneData) : euint32 :=
  fold_left (λ acc d, fheAdd acc (field d)) records (asEuint32 0).

(** The three ciphertexts handed to the oracle, in field order. *)
Definition aggregate (records : list EncryptedImmuneData) : list bytes32 :=
  [toBytes32 (homomorphic_sum antigenAffinity records);
   toBytes32 (homomorphic_sum antibodyCount records);
   toBytes32 (homomorphic_sum tCellEffectiveness records)].

(** The fingerprint of a batch, derived from ledger state alone. *)
Definition fingerprint (s : storage) (b : uint256) : bytes32 :=
  _hashCiphertexts (aggregate (rd [] (batchEncryptedData s) b)).

(** One step of the three running sums. *)
Definition add_record (t : totals) (d : EncryptedImmuneData) : totals :=
  mkTotals (fheAdd (totalAntigenAffinity t) (antigenAffinity d))
           (fheAdd (totalAntibodyCount t) (antibodyCount d))
           (fheAdd (totalTCellEffectiveness t) (tCellEffectiveness d)).

Definition zero_totals : totals := mkTotals (asEuint32 0) (asEuint32 0) (asEuint32 0).

End Aggregate.

(** ** Post-states of the accepted transactions *)

Section PostStates.
Context {X : External}.

(** The decoded results of a callback: three 32-byte words read at offsets
    [0x20], [0x40] and [0x60] from the [cleartexts] pointer. *)
Definition decoded_results (e : env) (cleartexts : list byte) : list uint256 :=
  let mem := be_bytes 32 (N.of_nat (length cleartexts)) ++ cleartexts ++ memory_tail e in
  [mload mem 32; mload mem 64; mload mem 96].

(** Storage after an accepted callback. *)
Definition complete (requestId : uint256) (s : storage) : storage :=
  let ctx := rd zeroContext (decryptionContexts s) requestId in
  set_decryptionContexts
    (<[requestId := mkContext (batchId ctx) (stateHash ctx) true]> (decryptionContexts s)) s.

(** The request id the oracle issues for batch [b] in state [s]. *)
Definition issued_requestId (s : storage) (b : uint256) : uint256 :=
  (requestDecryption (fhe s) (aggregate (rd [] (batchEncryptedData s) b))
     myCallback_selector).1.

(** Storage after an accepted [requestBatchAnalysis]. *)
Definition requested (e : env) (b : uint256) (s : storage) : storage :=
  let r := requestDecryption (fhe s) (aggregate (rd [] (batchEncryptedData s) b))
             myCallback_selector in
  set_lastDecryptionRequestTime
    (<[msg_sender e := block_timestamp e]> (lastDecryptionRequestTime s))
    (set_decryptionContexts
       (<[r.1 := mkContext b (fingerprint s b) false]> (decryptionContexts s))
       (set_fhe r.2 s)).

(** Storage after an accepted [submitEncryptedData]. *)
Definition submitted (e : env) (a b c : euint32) (s : storage) : storage :=
  let cur := currentBatchId s in
  let batch := rd zeroBatch (batches s) cur in
  set_lastSubmissionTime
    (<[msg_sender e := block_timestamp e]> (lastSubmissionTime s))
    (set_batches
       (<[cur := mkBatch (id batch) (totalEncryptedDataPoints batch + 1) (closed batch)]>
          (batches s))
       (set_batchEncryptedData
          (<[cur := rd [] (batchEncryptedData s) cur ++ [mkData a b c]]>
             (batchEncryptedData s)) s)).

End PostStates.

(** ** Histories *)

Section Histories.
Context {X : External}.

Definition succeeded (o : outcome) : bool :=
  match o with Success _ _ => true | Reverted _ => false end.

Definition emitted (o : outcome) : list event :=
  match o with Success _ evs => evs | Reverted _ => [] end.

Definition is_submit (c : call) : bool :=
  match c with SubmitEncryptedData _ _ _ => true | _ => false end.

(** The number of [submitEncryptedData] calls of the history [tr], run from
    [s], that were accepted while [b] was the current batch. *)
Fixpoint accepted_submits (b : uint256) (s : storage) (tr : list (env * call)) : nat :=
  match tr with
  | [] => 0
  | (e, c) :: tr' =>
      ((if is_submit c && succeeded (exec e c s) && (currentBatchId s =? b)%N
        then 1 else 0)
       + accepted_submits b (step e c s) tr')%nat
  end.

(** What holds of the ledger after any history: [cnt b] accepted
    submissions went to batch [b]. *)
Definition ledger_inv (s : storage) (cnt : N → nat) : Prop :=
  (∀ b, totalEncryptedDataPoints (rd zeroBatch (batches s) b) = N.of_nat (cnt b))
  ∧ (∀ b, length (rd [] (batchEncryptedData s) b) = cnt b)
  ∧ (∀ b, currentBatchId s < b → cnt b = 0%nat)
  ∧ closed (rd zeroBatch (batches s) 0) = false.

(** What one transaction adds to the count of batch [b]. *)
Definition counted (e : env) (c : call) (s : storage) (b : uint256) : nat :=
  if is_submit c && succeeded (exec e c s) && (currentBatchId s =? b) then 1 else 0.

(** The storage a deployment leaves. *)
Definition deployed (deployer : address) (o : Oracle) : storage :=
  (constructor deployer o).1.

End Histories.

(** ** The error conditions the specification names *)




(** The operations that skip their event when there is nothing to change. *)
Definition is_idempotent_op `{External} (c : call) : bool :=
  match c with
  | AddProvider _ | RemoveProvider _ | SetPaused _ => true
  | _ => false
  end.

(** The AccessControl operations. *)
Definition is_access_control `{External} (c : call) : bool :=
  match c with
  | TransferOwnership _ | AddProvider _ | RemoveProvider _ | SetPaused _ => true
  | _ => false
  end.

(** ** A concrete instance of the external capabilities

    A toy library on which the model can be run: handles are numbers, the
    homomorphic sum is addition of handles, the oracle hands out consecutive
    request ids, and a proof is valid when it is the single byte [01]. *)

Module Demo.

#[local] Instance toy : External := {|
  Oracle := N;
  asEuint32 := λ n, n + 1;
  fheAdd := λ a b, (3 * a + b) mod 2 ^ 256;
  toBytes32 := λ h, h;
  isInitialized := λ h, negb (h =? 0);
  requestDecryption := λ o _ _, (o, o + 1);
  checkSignatures := λ _ _ _ proof, match proof with [x01] => true | _ => false end;
  keccak256_encode := λ cts a, fold_left (λ acc c, (acc * 1000003 + c) mod 2 ^ 256) cts a;
  this := 4096;
  myCallback_selector := 0;
|}.

Definition alice : address := 10.
Definition bob : address := 11.
Definition carol : address := 12.

Definition at_time (who : address) (t : uint256) : env := mkEnv who t [].

Definition genesis : storage := deployed alice 7.

(** Bob becomes a provider, batch 1 collects two records and is closed. *)
Definition history_closed : list (env * call) :=
  [(at_time alice 100, AddProvider bob);
   (at_time alice 101, OpenBatch);
   (at_time bob 110, SubmitEncryptedData 5 6 7);
   (at_time bob 120, SubmitEncryptedData 8 9 10);
   (at_time alice 130, CloseBatch 1)].

Definition closed_batch : storage := run genesis history_closed.

(** Then the analysis of batch 1 is requested. *)
Definition history_request : list (env * call) :=
  history_closed ++ [(at_time alice 140, RequestBatchAnalysis 1)].

Definition pending : storage := run genesis history_request.

(** The oracle's answer arrives and is accepted. *)
Definition answer : list byte := replicate 31 x00 ++ [x2a] ++ replicate 64 x00.

Definition completed : storage :=
  step (at_time carol 150) (MyCallback 7 answer [x01]) pending.

(** No batch is ever opened: Bob submits once, then the owner sets the
    largest cooldown there is. *)
Definition history_no_batch : list (env * call) :=
  [(at_time alice 100, AddProvider bob);
   (at_time bob 1000, SubmitEncryptedData 5 6 7)].

Definition batchless : storage := run genesis history_no_batch.

Definition history_huge_cooldown : list (env * call) :=
  history_no_batch ++ [(at_time alice 1500, SetCooldownSeconds UINT256_MAX)].

Definition saturated : storage := run genesis history_huge_cooldown.


(** A cooldown of one minute on top of the first history. *)
Definition history_minute : list (env * call) :=
  [(at_time alice 100, AddProvider bob);
   (at_time alice 101, SetCooldownSeconds 60);
   (at_time alice 102, OpenBatch)].

Definition rate_limited : storage := run genesis history_minute.

End Demo.

(** ** Transactions as the contract's entry code sees them *)

Section Transactions.
Context {X : External}.








End Transactions.

(** ** Well-formed ledgers *)

Section Reachability.
Context {X : External}.

(** What every state reached from a deployment satisfies: no batch exists
    above [currentBatchId], every batch from 1 to [currentBatchId] exists and
    carries its own id, no closed batch lies outside that range, and a stored
    context is either processed or holds the fingerprint of a closed batch. *)
Definition well_formed (s : storage) : Prop :=
  (∀ b, currentBatchId s < b → batches s !! b = None ∧ batchEncryptedData s !! b = None)
  ∧ (∀ b, 1 ≤ b ≤ currentBatchId s → is_Some (batches s !! b))
  ∧ (∀ b batch, batches s !! b = Some batch → id batch = b)
  ∧ closed (rd zeroBatch (batches s) 0) = false
  ∧ (∀ requestId ctx, decryptionContexts s !! requestId = Some ctx →
       processed ctx = true
       ∨ (1 ≤ batchId ctx ≤ currentBatchId s
          ∧ closed (rd zeroBatch (batches s) (batchId ctx)) = true
          ∧ stateHash ctx = fingerprint s (batchId ctx))).

Definition is_open (c : call) : bool :=
  match c with OpenBatch => true | _ => false end.

(** The number of accepted [openBatch] calls of a history run from [s]. *)
Fixpoint accepted_opens (s : storage) (tr : list (env * call)) : nat :=
  match tr with
  | [] => 0
  | (e, c) :: tr' =>
      ((if is_open c && succeeded (exec e c s) then 1 else 0)
       + accepted_opens (step e c s) tr')%nat
  end.

(** The calls only the owner may make. *)
Definition is_owner_only (c : call) : bool :=
  match c with
  | SubmitEncryptedData _ _ _ | MyCallback _ _ _ => false
  | _ => true
  end.


(** Three [uint256] words laid out as [abi.encode] lays them out. *)
Definition encode_words (a b c : uint256) : list byte :=
  be_bytes 32 a ++ be_bytes 32 b ++ be_bytes 32 c.

End Reachability.

(** ** Further concrete histories *)

Module Scenarios.
Import Demo.
#[local] Existing Instance Demo.toy.

(** Batch 1 is closed while empty. *)
Definition history_empty_closed : list (env * call) :=
  [(at_time alice 100, OpenBatch);
   (at_time alice 110, CloseBatch 1)].

Definition empty_closed : storage := run genesis history_empty_closed.

(** What follows: a provider, a second batch and a record. *)
Definition history_after : list (env * call) :=
  [(at_time alice 120, AddProvider bob);
   (at_time alice 130, OpenBatch);
   (at_time bob 140, SubmitEncryptedData 5 6 7)].

(** Batch 1 holds one record and is superseded by batch 2 without having been
    closed. *)
Definition history_superseded : list (env * call) :=
  [(at_time alice 100, AddProvider bob);
   (at_time alice 101, OpenBatch);
   (at_time bob 110, SubmitEncryptedData 5 6 7);
   (at_time alice 120, OpenBatch)].

Definition superseded : storage := run genesis history_superseded.

Definition history_later : list (env * call) :=
  [(at_time bob 130, SubmitEncryptedData 8 9 10);
   (at_time alice 140, CloseBatch 1)].

(** The context stored for request 7. *)
Definition context_7 : DecryptionContext := mkContext 1 4096036896110820111028 false.

End Scenarios.

(** ** Proof automation *)

Ltac storage_cbn :=
  cbn [set_owner set_isProvider set_paused set_cooldownSeconds set_lastSubmissionTime
       set_lastDecryptionRequestTime set_currentBatchId set_batches
       set_batchEncryptedData set_decryptionContexts set_fhe
       owner isProvider paused cooldownSeconds lastSubmissionTime
       lastDecryptionRequestTime currentBatchId batches batchEncryptedData
       decryptionContexts fhe].

(** ** Loop lemmas *)

Section Loops.
Context {X : External}.

Lemma loop_body_in_range b i t s log d :
  rd [] (batchEncryptedData s) b !! i = Some d →
  loop_body b i t s log = Ok (add_record t d) s log.
Proof.
  intros H. unfold loop_body, mbind, M_bind, gets. rewrite H. reflexivity.
Qed.

Lemma requestBatchAnalysis_loop_spec b n : ∀ i t s log,
  (i + n ≤ length (rd [] (batchEncryptedData s) b))%nat →
  requestBatchAnalysis_loop b i n t s log
  = Ok (fold_left add_record (take n (drop i (rd [] (batchEncryptedData s) b))) t) s log.
Proof.
  induction n as [|n IH]; intros i t s log Hlen; simpl.
  - reflexivity.
  - destruct (lookup_lt_is_Some_2 (rd [] (batchEncryptedData s) b) i) as [d Hd]; [lia|].
    unfold mbind, M_bind. rewrite (loop_body_in_range _ _ _ _ _ _ Hd).
    fold (@mbind M _). rewrite IH by lia.
    rewrite (drop_S _ _ _ Hd). reflexivity.
Qed.

Lemma myCallback_loop_spec b n : ∀ i t s log,
  (i + n ≤ length (rd [] (batchEncryptedData s) b))%nat →
  myCallback_loop b i n t s log
  = Ok (fold_left add_record (take n (drop i (rd [] (batchEncryptedData s) b))) t) s log.
Proof.
  induction n as [|n IH]; intros i t s log Hlen; simpl.
  - reflexivity.
  - destruct (lookup_lt_is_Some_2 (rd [] (batchEncryptedData s) b) i) as [d Hd]; [lia|].
    unfold mbind, M_bind. rewrite (loop_body_in_range _ _ _ _ _ _ Hd).
    fold (@mbind M _). rewrite IH by lia.
    rewrite (drop_S _ _ _ Hd). reflexivity.
Qed.

Lemma fold_add_record records : ∀ t,
  fold_left add_record records t
  = mkTotals
      (fold_left (λ acc d, fheAdd acc (antigenAffinity d)) records (totalAntigenAffinity t))
      (fold_left (λ acc d, fheAdd acc (antibodyCount d)) records (totalAntibodyCount t))
      (fold_left (λ acc d, fheAdd acc (tCellEffectiveness d)) records
         (totalTCellEffectiveness t)).
Proof.
  induction records as [|d records IH]; intros [x y z]; simpl.
  - reflexivity.
  - rewrite IH. reflexivity.
Qed.

Lemma full_loop_totals records :
  fold_left add_record (take (length records) (drop 0 records)) zero_totals
  = mkTotals (homomorphic_sum antigenAffinity records)
             (homomorphic_sum antibodyCount records)
             (homomorphic_sum tCellEffectiveness records).
Proof.
  rewrite drop_0, firstn_all. apply fold_add_record.
Qed.

End Loops.

Section Runs.
Context {X : External}.

Lemma bind_gets {A B} (f : storage → A) (k : A → M B) s log :
  (gets f ≫= k) s log = k (f s) s log.
Proof. reflexivity. Qed.

Lemma bind_modify {B} (f : storage → storage) (k : unit → M B) s log :
  (modify f ≫= k) s log = k tt (f s) log.
Proof. reflexivity. Qed.

Lemma bind_emit {B} ev (k : unit → M B) s log :
  (emit ev ≫= k) s log = k tt s (log ++ [ev]).
Proof. reflexivity. Qed.

Lemma bind_revert_if {B} c err (k : unit → M B) s log :
  (revert_if c err ≫= k) s log = if c then Err err else k tt s log.
Proof. destruct c; reflexivity. Qed.

Lemma bind_checked_add {B} a b (k : uint256 → M B) s log :
  (checked_add a b ≫= k) s log
  = if a + b <=? UINT256_MAX then k (a + b) s log else Err (Panic ARITHMETIC_OVERFLOW).
Proof. unfold checked_add. destruct (a + b <=? UINT256_MAX); reflexivity. Qed.

Lemma bind_assoc {A B C} (m : M A) (f : A → M B) (g : B → M C) s log :
  ((m ≫= f) ≫= g) s log = (m ≫= (λ a, f a ≫= g)) s log.
Proof. unfold mbind, M_bind. destruct (m s log); reflexivity. Qed.

Lemma bind_onlyOwner {B} e (k : unit → M B) s log :
  (onlyOwner e ≫= k) s log = if msg_sender e =? owner s then k tt s log else Err NotOwner.
Proof.
  unfold onlyOwner. rewrite bind_assoc, bind_gets, bind_revert_if.
  destruct (msg_sender e =? owner s); reflexivity.
Qed.

Lemma bind_onlyProvider {B} e (k : unit → M B) s log :
  (onlyProvider e ≫= k) s log
  = if rd false (isProvider s) (msg_sender e) then k tt s log else Err NotProvider.
Proof.
  unfold onlyProvider. rewrite bind_assoc, bind_gets, bind_revert_if.
  destruct (rd false (isProvider s) (msg_sender e)); reflexivity.
Qed.

Lemma bind_whenNotPaused {B} (k : unit → M B) s log :
  (whenNotPaused ≫= k) s log = if paused s then Err Paused else k tt s log.
Proof. unfold whenNotPaused. rewrite bind_assoc, bind_gets, bind_revert_if. reflexivity. Qed.

Lemma bind_checkSubmissionCooldown {B} e (k : unit → M B) s log :
  (checkSubmissionCooldown e ≫= k) s log
  = let limit := rd 0 (lastSubmissionTime s) (msg_sender e) + cooldownSeconds s in
    if limit <=? UINT256_MAX
    then if block_timestamp e <? limit then Err CooldownActive else k tt s log
    else Err (Panic ARITHMETIC_OVERFLOW).
Proof.
  unfold checkSubmissionCooldown.
  rewrite bind_assoc, bind_gets, bind_assoc, bind_gets, bind_assoc, bind_checked_add.
  cbv zeta. destruct (_ <=? UINT256_MAX); [|reflexivity]. apply bind_revert_if.
Qed.

Lemma bind_checkDecryptionCooldown {B} e (k : unit → M B) s log :
  (checkDecryptionCooldown e ≫= k) s log
  = let limit := rd 0 (lastDecryptionRequestTime s) (msg_sender e) + cooldownSeconds s in
    if limit <=? UINT256_MAX
    then if block_timestamp e <? limit then Err CooldownActive else k tt s log
    else Err (Panic ARITHMETIC_OVERFLOW).
Proof.
  unfold checkDecryptionCooldown.
  rewrite bind_assoc, bind_gets, bind_assoc, bind_gets, bind_assoc, bind_checked_add.
  cbv zeta. destruct (_ <=? UINT256_MAX); [|reflexivity]. apply bind_revert_if.
Qed.

Lemma bind_initIfNeeded {B} x (k : unit → M B) s log :
  (_initIfNeeded x ≫= k) s log = if isInitialized x then k tt s log else Err NotInitialized.
Proof. unfold _initIfNeeded. rewrite bind_revert_if. destruct (isInitialized x); reflexivity. Qed.

Lemma myCallback_run e requestId cleartexts proof s log :
  myCallback e requestId cleartexts proof s log =
  let ctx := rd zeroContext (decryptionContexts s) requestId in
  if processed ctx then Err ReplayAttempt
  else if negb (fingerprint s (batchId ctx) =? stateHash ctx) then Err StateMismatch
  else if negb (checkSignatures (fhe s) requestId cleartexts proof) then Err InvalidProof
  else Ok tt (complete requestId s)
         (log ++ [DecryptionCompleted requestId (batchId ctx) (decoded_results e cleartexts)]).
Proof.
  unfold myCallback. rewrite bind_gets, bind_revert_if. cbv zeta.
  destruct (processed _) eqn:Hp; [reflexivity|].
  rewrite bind_gets.
  unfold mbind at 1, M_bind at 1.
  rewrite myCallback_loop_spec by (cbn [Nat.add]; lia).
  fold zero_totals. rewrite full_loop_totals. cbn [totalAntigenAffinity totalAntibodyCount totalTCellEffectiveness].
  rewrite bind_revert_if.
  unfold fingerprint, aggregate.
  destruct (negb _); [reflexivity|].
  rewrite bind_gets, bind_revert_if.
  destruct (negb _); [reflexivity|].
  rewrite bind_modify. reflexivity.
Qed.

Lemma requestBatchAnalysis_run e b s log :
  requestBatchAnalysis e b s log =
  let batch := rd zeroBatch (batches s) b in
  let limit := rd 0 (lastDecryptionRequestTime s) (msg_sender e) + cooldownSeconds s in
  if negb (msg_sender e =? owner s) then Err NotOwner
  else if paused s then Err Paused
  else if negb (limit <=? UINT256_MAX) then Err (Panic ARITHMETIC_OVERFLOW)
  else if block_timestamp e <? limit then Err CooldownActive
  else if (b =? 0) || (currentBatchId s <? b) || negb (closed batch) then Err InvalidBatchId
  else if totalEncryptedDataPoints batch =? 0 then Err InvalidBatchId
  else Ok tt (requested e b s)
         (log ++ [DecryptionRequested (issued_requestId s b) b (fingerprint s b)]).
Proof.
  unfold requestBatchAnalysis.
  rewrite bind_onlyOwner. destruct (msg_sender e =? owner s); [|reflexivity].
  rewrite bind_whenNotPaused. destruct (paused s); [reflexivity|].
  rewrite bind_checkDecryptionCooldown. cbv zeta.
  destruct (_ <=? UINT256_MAX); [|reflexivity].
  destruct (block_timestamp e <? _); [reflexivity|]. cbn [negb].
  rewrite !bind_gets, bind_revert_if.
  destruct (_ || _ || _); [reflexivity|].
  rewrite bind_revert_if.
  destruct (_ =? 0); [reflexivity|].
  rewrite bind_gets.
  unfold mbind at 1, M_bind at 1.
  rewrite requestBatchAnalysis_loop_spec by (cbn [Nat.add]; lia).
  fold zero_totals. rewrite full_loop_totals.
  cbn [totalAntigenAffinity totalAntibodyCount totalTCellEffectiveness].
  rewrite bind_gets.
  unfold requested, issued_requestId, fingerprint, aggregate.
  destruct (requestDecryption _ _ _) as [requestId o'] eqn:Hreq.
  rewrite !bind_modify. destruct s. reflexivity.
Qed.

Lemma submitEncryptedData_run e a b c s log :
  submitEncryptedData e a b c s log =
  let cur := currentBatchId s in
  let batch := rd zeroBatch (batches s) cur in
  let limit := rd 0 (lastSubmissionTime s) (msg_sender e) + cooldownSeconds s in
  if negb (rd false (isProvider s) (msg_sender e)) then Err NotProvider
  else if paused s then Err Paused
  else if negb (limit <=? UINT256_MAX) then Err (Panic ARITHMETIC_OVERFLOW)
  else if block_timestamp e <? limit then Err CooldownActive
  else if negb (isInitialized a && isInitialized b && isInitialized c) then Err NotInitialized
  else if closed batch then Err BatchClosedOrInvalid
  else if negb (totalEncryptedDataPoints batch + 1 <=? UINT256_MAX)
       then Err (Panic ARITHMETIC_OVERFLOW)
  else Ok tt (submitted e a b c s) (log ++ [DataSubmitted (msg_sender e) cur 1]).
Proof.
  unfold submitEncryptedData.
  rewrite bind_onlyProvider. destruct (rd false _ _); [|reflexivity].
  rewrite bind_whenNotPaused. destruct (paused s); [reflexivity|].
  rewrite bind_checkSubmissionCooldown. cbv zeta.
  destruct (_ <=? UINT256_MAX); [|reflexivity].
  destruct (block_timestamp e <? _); [reflexivity|]. cbn [negb].
  rewrite bind_initIfNeeded. destruct (isInitialized a); [|reflexivity].
  rewrite bind_initIfNeeded. destruct (isInitialized b); [|reflexivity].
  rewrite bind_initIfNeeded. destruct (isInitialized c); [|reflexivity].
  cbn [andb negb].
  rewrite !bind_gets, bind_revert_if.
  destruct (closed _) eqn:Hc; [reflexivity|].
  rewrite bind_modify, bind_checked_add.
  destruct s; cbn [set_batchEncryptedData batches totalEncryptedDataPoints].
  destruct (_ <=? UINT256_MAX); [|reflexivity]. cbn [negb].
  rewrite !bind_modify. unfold submitted. cbv zeta. rewrite Hc. reflexivity.
Qed.

End Runs.

(** ** The decryption callback *)

Section Callback.
Context {X : External}.

Lemma exec_myCallback e requestId cleartexts proof s :
  exec e (MyCallback requestId cleartexts proof) s =
  let ctx := rd zeroContext (decryptionContexts s) requestId in
  if processed ctx then Reverted ReplayAttempt
  else if negb (fingerprint s (batchId ctx) =? stateHash ctx) then Reverted StateMismatch
  else if negb (checkSignatures (fhe s) requestId cleartexts proof) then Reverted InvalidProof
  else Success (complete requestId s)
         [DecryptionCompleted requestId (batchId ctx) (decoded_results e cleartexts)].
Proof.
  unfold exec, dispatch. rewrite myCallback_run. cbv zeta.
  repeat (destruct (_ : bool); [reflexivity|]). reflexivity.
Qed.

Lemma complete_processed requestId s :
  processed (rd zeroContext (decryptionContexts (complete requestId s)) requestId) = true.
Proof.
  unfold complete, rd. destruct s. cbn [set_decryptionContexts decryptionContexts].
  rewrite lookup_insert_eq. reflexivity.
Qed.

(** C1: once the context of a request id is processed, every callback with
    that id reverts with [ReplayAttempt], and the storage (the stored context
    included) is what it was. *)
Theorem replay_is_rejected e requestId cleartexts proof s :
  processed (rd zeroContext (decryptionContexts s) requestId) = true →
  exec e (MyCallback requestId cleartexts proof) s = Reverted ReplayAttempt
  ∧ step e (MyCallback requestId cleartexts proof) s = s.
Proof.
  intros Hp. assert (Hx : exec e (MyCallback requestId cleartexts proof) s
                          = Reverted ReplayAttempt).
  { rewrite exec_myCallback. cbv zeta. rewrite Hp. reflexivity. }
  split; [exact Hx|]. unfold step. rewrite Hx. reflexivity.
Qed.

(** C2: the callback checks replay first, then the fingerprint, then the
    proof; only when all three pass does it decode exactly three results, set
    [processed] and emit the completion event; when any check fails the
    storage is what it was. *)
Theorem callback_check_order e requestId cleartexts proof s :
  let c := MyCallback requestId cleartexts proof in
  let ctx := rd zeroContext (decryptionContexts s) requestId in
  let replayed := processed ctx in
  let mismatch := negb (fingerprint s (batchId ctx) =? stateHash ctx) in
  let forged := negb (checkSignatures (fhe s) requestId cleartexts proof) in
  exec e c s =
    (if replayed then Reverted ReplayAttempt
     else if mismatch then Reverted StateMismatch
     else if forged then Reverted InvalidProof
     else Success (complete requestId s)
            [DecryptionCompleted requestId (batchId ctx) (decoded_results e cleartexts)])
  ∧ step e c s = (if replayed || mismatch || forged then s else complete requestId s)
  ∧ length (decoded_results e cleartexts) = 3%nat
  ∧ processed (rd zeroContext (decryptionContexts (complete requestId s)) requestId) = true
  ∧ decryptionContexts (complete requestId s)
    = <[requestId := mkContext (batchId ctx) (stateHash ctx) true]> (decryptionContexts s).
Proof.
  cbv zeta. split; [apply exec_myCallback|]. split.
  - unfold step. rewrite exec_myCallback. cbv zeta.
    repeat (destruct (_ : bool); [reflexivity|]). reflexivity.
  - split; [reflexivity|]. split; [apply complete_processed|].
    unfold complete. destruct s. reflexivity.
Qed.

(** C10: the callback is open to every caller and ignores the pause flag:
    whoever calls, paused or not, it either succeeds or reverts with
    [ReplayAttempt], [StateMismatch] or [InvalidProof], and its outcome does
    not depend on the caller, the time or the pause flag. *)
Theorem callback_is_ungated e requestId cleartexts proof s caller now flag :
  let c := MyCallback requestId cleartexts proof in
  (exec e c s = Reverted ReplayAttempt
   ∨ exec e c s = Reverted StateMismatch
   ∨ exec e c s = Reverted InvalidProof
   ∨ ∃ evs, exec e c s = Success (complete requestId s) evs)
  ∧ exec e c s ≠ Reverted Paused
  ∧ exec e c s ≠ Reverted NotOwner
  ∧ exec e c s ≠ Reverted NotProvider
  ∧ exec (mkEnv caller now (memory_tail e)) c (set_paused flag s)
    = match exec e c s with
      | Success s' evs => Success (set_paused flag s') evs
      | Reverted err => Reverted err
      end.
Proof.
  cbv zeta. rewrite !exec_myCallback. cbv zeta.
  assert (Hs : ∀ f, decryptionContexts (set_paused f s) = decryptionContexts s
                    ∧ batchEncryptedData (set_paused f s) = batchEncryptedData s
                    ∧ fhe (set_paused f s) = fhe s
                    ∧ complete requestId (set_paused f s) = set_paused f (complete requestId s)).
  { intros f. destruct s. repeat split; reflexivity. }
  destruct (Hs flag) as (H1 & H2 & H3 & H4).
  unfold fingerprint. rewrite H1, H2, H3, H4.
  destruct (processed _); [repeat split; try discriminate; auto|].
  destruct (negb (_ =? _)); [repeat split; try discriminate; auto|].
  destruct (negb (checkSignatures _ _ _ _)); repeat split; try discriminate; eauto 6.
Qed.

End Callback.

(** ** Requesting an analysis *)

Section Request.
Context {X : External}.

Lemma exec_requestBatchAnalysis e b s :
  exec e (RequestBatchAnalysis b) s =
  let batch := rd zeroBatch (batches s) b in
  let limit := rd 0 (lastDecryptionRequestTime s) (msg_sender e) + cooldownSeconds s in
  if negb (msg_sender e =? owner s) then Reverted NotOwner
  else if paused s then Reverted Paused
  else if negb (limit <=? UINT256_MAX) then Reverted (Panic ARITHMETIC_OVERFLOW)
  else if block_timestamp e <? limit then Reverted CooldownActive
  else if (b =? 0) || (currentBatchId s <? b) || negb (closed batch)
       then Reverted InvalidBatchId
  else if totalEncryptedDataPoints batch =? 0 then Reverted InvalidBatchId
  else Success (requested e b s)
         [DecryptionRequested (issued_requestId s b) b (fingerprint s b)].
Proof.
  unfold exec, dispatch. rewrite requestBatchAnalysis_run. cbv zeta.
  repeat (destruct (_ : bool); [reflexivity|]). reflexivity.
Qed.

Lemma requested_context e b s :
  rd zeroContext (decryptionContexts (requested e b s)) (issued_requestId s b)
  = mkContext b (fingerprint s b) false.
Proof.
  unfold requested, issued_requestId, rd. destruct s.
  cbn [set_lastDecryptionRequestTime set_decryptionContexts set_fhe decryptionContexts].
  rewrite lookup_insert_eq. reflexivity.
Qed.

(** C3: for the owner, unpaused and off cooldown, [requestBatchAnalysis]
    reverts with [InvalidBatchId] exactly when the id is 0, exceeds
    [currentBatchId], names a batch that is not closed, or names a batch with
    no records; otherwise it sums each of the three fields left to right from
    an encrypted zero, stores an unprocessed context under the id the oracle
    issued, and emits the request event. *)
Theorem requestBatchAnalysis_spec e b s :
  msg_sender e = owner s →
  paused s = false →
  rd 0 (lastDecryptionRequestTime s) (msg_sender e) + cooldownSeconds s ≤ block_timestamp e →
  block_timestamp e ≤ UINT256_MAX →
  let batch := rd zeroBatch (batches s) b in
  let records := rd [] (batchEncryptedData s) b in
  let invalid := b = 0 ∨ currentBatchId s < b ∨ closed batch = false
                 ∨ totalEncryptedDataPoints batch = 0 in
  let cts := [toBytes32 (fold_left (λ acc d, fheAdd acc (antigenAffinity d)) records
                           (asEuint32 0));
              toBytes32 (fold_left (λ acc d, fheAdd acc (antibodyCount d)) records
                           (asEuint32 0));
              toBytes32 (fold_left (λ acc d, fheAdd acc (tCellEffectiveness d)) records
                           (asEuint32 0))] in
  let requestId := (requestDecryption (fhe s) cts myCallback_selector).1 in
  let hash := keccak256_encode cts this in
  (exec e (RequestBatchAnalysis b) s = Reverted InvalidBatchId ↔ invalid)
  ∧ (¬ invalid →
     exec e (RequestBatchAnalysis b) s
     = Success (requested e b s) [DecryptionRequested requestId b hash]
     ∧ rd zeroContext (decryptionContexts (requested e b s)) requestId
       = mkContext b hash false).
Proof.
  intros Ho Hp Hcd Hnow. cbv zeta.
  rewrite exec_requestBatchAnalysis. cbv zeta.
  apply N.eqb_eq in Ho. rewrite Ho, Hp. cbn [negb].
  destruct (N.leb_spec
    (rd 0 (lastDecryptionRequestTime s) (msg_sender e) + cooldownSeconds s) UINT256_MAX)
    as [_|Hover]; [|lia].
  destruct (N.ltb_spec (block_timestamp e)
    (rd 0 (lastDecryptionRequestTime s) (msg_sender e) + cooldownSeconds s)) as [Hlt|_]; [lia|].
  cbn [negb].
  destruct (N.eqb_spec b 0) as [Hb|Hb]; cbn [orb].
  { split; [tauto|]. intros Hn. exfalso. tauto. }
  destruct (N.ltb_spec (currentBatchId s) b) as [Hc|Hc]; cbn [orb].
  { split; [tauto|]. intros Hn. exfalso. tauto. }
  destruct (closed (rd zeroBatch (batches s) b)) eqn:Hcl; cbn [negb].
  2:{ split; [tauto|]. intros Hn. exfalso. tauto. }
  destruct (N.eqb_spec (totalEncryptedDataPoints (rd zeroBatch (batches s) b)) 0) as [Ht|Ht].
  { split; [tauto|]. intros Hn. exfalso. tauto. }
  split.
  - split; [discriminate|]. intros [?|[?|[?|?]]]; [lia|lia|discriminate|lia].
  - intros _. split; [reflexivity|]. apply requested_context.
Qed.

(** C5: the aggregation depends on nothing but the batch's record list:
    when two states hold the same records for a batch, the loop of
    [requestBatchAnalysis] in the first and the loop of [myCallback] in the
    second return the same three totals, leave storage and log untouched,
    and yield the same ciphertexts and the same fingerprint; hence a callback
    whose context stores the fingerprint taken at request time does not
    revert with [StateMismatch]. *)
Theorem aggregation_is_reentrant s1 s2 b log1 log2 :
  rd [] (batchEncryptedData s1) b = rd [] (batchEncryptedData s2) b →
  let n1 := length (rd [] (batchEncryptedData s1) b) in
  let n2 := length (rd [] (batchEncryptedData s2) b) in
  (∃ t, requestBatchAnalysis_loop b 0 n1 zero_totals s1 log1 = Ok t s1 log1
        ∧ myCallback_loop b 0 n2 zero_totals s2 log2 = Ok t s2 log2
        ∧ [toBytes32 (totalAntigenAffinity t); toBytes32 (totalAntibodyCount t);
           toBytes32 (totalTCellEffectiveness t)]
          = aggregate (rd [] (batchEncryptedData s1) b))
  ∧ aggregate (rd [] (batchEncryptedData s1) b) = aggregate (rd [] (batchEncryptedData s2) b)
  ∧ fingerprint s1 b = fingerprint s2 b
  ∧ ∀ e requestId cleartexts proof,
      rd zeroContext (decryptionContexts s2) requestId = mkContext b (fingerprint s1 b) false →
      exec e (MyCallback requestId cleartexts proof) s2 ≠ Reverted StateMismatch.
Proof.
  intros Hrec. cbv zeta.
  assert (Hf : fingerprint s1 b = fingerprint s2 b) by (unfold fingerprint; rewrite Hrec; reflexivity).
  split; [|split; [rewrite Hrec; reflexivity|split; [exact Hf|]]].
  - eexists. split; [|split].
    + rewrite requestBatchAnalysis_loop_spec by (cbn [Nat.add]; lia).
      rewrite full_loop_totals. reflexivity.
    + rewrite myCallback_loop_spec by (cbn [Nat.add]; lia).
      rewrite full_loop_totals, Hrec. reflexivity.
    + rewrite Hrec. reflexivity.
  - intros e requestId cleartexts proof Hctx.
    rewrite exec_myCallback. cbv zeta. rewrite Hctx. cbn [processed batchId stateHash].
    rewrite Hf, N.eqb_refl. cbn [negb].
    destruct (negb _); discriminate.
Qed.

End Request.

(** ** Administration and the batch ledger *)

Section Administration.
Context {X : External}.

Lemma exec_transferOwnership e newOwner s :
  exec e (TransferOwnership newOwner) s =
  if msg_sender e =? owner s
  then Success (set_owner newOwner s) [OwnershipTransferred (owner s) newOwner]
  else Reverted NotOwner.
Proof.
  unfold exec, dispatch, transferOwnership. rewrite bind_onlyOwner.
  destruct (msg_sender e =? owner s); reflexivity.
Qed.

Lemma exec_addProvider e p s :
  exec e (AddProvider p) s =
  if msg_sender e =? owner s
  then if rd false (isProvider s) p then Success s []
       else Success (set_isProvider (<[p := true]> (isProvider s)) s) [ProviderAdded p]
  else Reverted NotOwner.
Proof.
  unfold exec, dispatch, addProvider. rewrite bind_onlyOwner.
  destruct (msg_sender e =? owner s); [|reflexivity].
  rewrite bind_gets. destruct (rd false (isProvider s) p); reflexivity.
Qed.

Lemma exec_removeProvider e p s :
  exec e (RemoveProvider p) s =
  if msg_sender e =? owner s
  then if rd false (isProvider s) p
       then Success (set_isProvider (<[p := false]> (isProvider s)) s) [ProviderRemoved p]
       else Success s []
  else Reverted NotOwner.
Proof.
  unfold exec, dispatch, removeProvider. rewrite bind_onlyOwner.
  destruct (msg_sender e =? owner s); [|reflexivity].
  rewrite bind_gets. destruct (rd false (isProvider s) p); reflexivity.
Qed.

Lemma exec_setPaused e flag s :
  exec e (SetPaused flag) s =
  if msg_sender e =? owner s
  then if eqb flag (paused s) then Success s []
       else Success (set_paused flag s)
              [if flag then ContractPaused (msg_sender e) else ContractUnpaused (msg_sender e)]
  else Reverted NotOwner.
Proof.
  unfold exec, dispatch, setPaused. rewrite bind_onlyOwner.
  destruct (msg_sender e =? owner s); [|reflexivity].
  rewrite bind_gets. destruct (eqb flag (paused s)); [reflexivity|].
  destruct flag; reflexivity.
Qed.

Lemma exec_setCooldownSeconds e n s :
  exec e (SetCooldownSeconds n) s =
  if msg_sender e =? owner s
  then Success (set_cooldownSeconds n s) [CooldownSecondsSet (cooldownSeconds s) n]
  else Reverted NotOwner.
Proof.
  unfold exec, dispatch, setCooldownSeconds. rewrite bind_onlyOwner.
  destruct (msg_sender e =? owner s); reflexivity.
Qed.

(** Storage after an accepted [openBatch]. *)
Lemma exec_openBatch e s :
  exec e OpenBatch s =
  let next := currentBatchId s + 1 in
  if negb (msg_sender e =? owner s) then Reverted NotOwner
  else if paused s then Reverted Paused
  else if negb (next <=? UINT256_MAX) then Reverted (Panic ARITHMETIC_OVERFLOW)
  else Success (set_batches (<[next := mkBatch next 0 false]> (batches s))
                  (set_currentBatchId next s))
         [BatchOpened next].
Proof.
  unfold exec, dispatch, openBatch. rewrite bind_onlyOwner.
  destruct (msg_sender e =? owner s); [|reflexivity].
  rewrite bind_whenNotPaused. destruct (paused s); [reflexivity|].
  rewrite bind_gets, bind_checked_add. cbv zeta.
  destruct (_ <=? UINT256_MAX); [|reflexivity].
  rewrite !bind_modify. destruct s. reflexivity.
Qed.

Lemma exec_closeBatch e b s :
  exec e (CloseBatch b) s =
  let batch := rd zeroBatch (batches s) b in
  if negb (msg_sender e =? owner s) then Reverted NotOwner
  else if paused s then Reverted Paused
  else if (b =? 0) || (currentBatchId s <? b) || closed batch then Reverted InvalidBatchId
  else Success (set_batches
                  (<[b := mkBatch (id batch) (totalEncryptedDataPoints batch) true]> (batches s))
                  s)
         [BatchClosed b (totalEncryptedDataPoints batch)].
Proof.
  unfold exec, dispatch, closeBatch. rewrite bind_onlyOwner.
  destruct (msg_sender e =? owner s); [|reflexivity].
  rewrite bind_whenNotPaused. destruct (paused s); [reflexivity|].
  rewrite !bind_gets, bind_revert_if. cbv zeta.
  destruct (_ || _ || _); reflexivity.
Qed.

Lemma exec_submitEncryptedData e a b c s :
  exec e (SubmitEncryptedData a b c) s =
  let cur := currentBatchId s in
  let batch := rd zeroBatch (batches s) cur in
  let limit := rd 0 (lastSubmissionTime s) (msg_sender e) + cooldownSeconds s in
  if negb (rd false (isProvider s) (msg_sender e)) then Reverted NotProvider
  else if paused s then Reverted Paused
  else if negb (limit <=? UINT256_MAX) then Reverted (Panic ARITHMETIC_OVERFLOW)
  else if block_timestamp e <? limit then Reverted CooldownActive
  else if negb (isInitialized a && isInitialized b && isInitialized c)
       then Reverted NotInitialized
  else if closed batch then Reverted BatchClosedOrInvalid
  else if negb (totalEncryptedDataPoints batch + 1 <=? UINT256_MAX)
       then Reverted (Panic ARITHMETIC_OVERFLOW)
  else Success (submitted e a b c s) [DataSubmitted (msg_sender e) cur 1].
Proof.
  unfold exec, dispatch. rewrite submitEncryptedData_run. cbv zeta.
  repeat (destruct (_ : bool); [reflexivity|]). reflexivity.
Qed.

Lemma set_isProvider_changes m s :
  m ≠ isProvider s → set_isProvider m s ≠ s.
Proof. intros Hne Heq. apply Hne. rewrite <- Heq. destruct s. reflexivity. Qed.

Lemma set_paused_changes flag s :
  flag ≠ paused s → set_paused flag s ≠ s.
Proof. intros Hne Heq. apply Hne. rewrite <- Heq. destruct s. reflexivity. Qed.

Lemma insert_changes (m : gmap N bool) k v :
  rd false m k ≠ v → <[k := v]> m ≠ m.
Proof.
  intros Hne Heq. apply Hne. unfold rd. rewrite <- Heq, lookup_insert_eq. reflexivity.
Qed.

(** C7: [addProvider], [removeProvider] and [setPaused] by the owner emit
    their event when they change the storage: [ProviderAdded] for a new
    provider, [ProviderRemoved] for a member, [ContractPaused] or
    [ContractUnpaused] when the flag changes, each with the state changed
    accordingly.  They change nothing and emit nothing when the target is
    already reached; the second of two calls in a row is always silent, so
    that [setPaused(true)] twice on an unpaused contract emits
    [ContractPaused] exactly once; and each of the three emits an event
    (exactly one) exactly when it changes the storage. *)
Theorem access_control_idempotent e e' p s :
  msg_sender e = owner s →
  msg_sender e' = owner s →
  (rd false (isProvider s) p = false →
   exec e (AddProvider p) s
   = Success (set_isProvider (<[p := true]> (isProvider s)) s) [ProviderAdded p])
  ∧ (rd false (isProvider s) p = true →
     exec e (RemoveProvider p) s
     = Success (set_isProvider (<[p := false]> (isProvider s)) s) [ProviderRemoved p])
  ∧ (paused s = false →
     exec e (SetPaused true) s
     = Success (set_paused true s) [ContractPaused (msg_sender e)])
  ∧ (paused s = true →
     exec e (SetPaused false) s
     = Success (set_paused false s) [ContractUnpaused (msg_sender e)])
  ∧ (rd false (isProvider (step e (AddProvider p) s)) p = true
     ∧ rd false (isProvider (step e (RemoveProvider p) s)) p = false
     ∧ paused (step e (SetPaused true) s) = true
     ∧ paused (step e (SetPaused false) s) = false)
  ∧ emitted (exec e (SetPaused true) s)
    ++ emitted (exec e' (SetPaused true) (step e (SetPaused true) s))
    = (if paused s then [] else [ContractPaused (msg_sender e)])
  ∧ (rd false (isProvider s) p = true → exec e (AddProvider p) s = Success s [])
  ∧ (rd false (isProvider s) p = false → exec e (RemoveProvider p) s = Success s [])
  ∧ exec e (SetPaused (paused s)) s = Success s []
  ∧ exec e' (AddProvider p) (step e (AddProvider p) s) = Success (step e (AddProvider p) s) []
  ∧ exec e' (RemoveProvider p) (step e (RemoveProvider p) s)
    = Success (step e (RemoveProvider p) s) []
  ∧ exec e' (SetPaused true) (step e (SetPaused true) s)
    = Success (step e (SetPaused true) s) []
  ∧ (length (emitted (exec e (SetPaused true) s)
             ++ emitted (exec e' (SetPaused true) (step e (SetPaused true) s))) ≤ 1)%nat
  ∧ ∀ c caller, is_idempotent_op c = true →
      (emitted (exec caller c s) = [] ↔ step caller c s = s)
      ∧ (length (emitted (exec caller c s)) ≤ 1)%nat.
Proof.
  intros Ho Ho'. apply N.eqb_eq in Ho, Ho'.
  assert (Hown : ∀ c, owner (step e c s) = owner s ∨ ¬ is_idempotent_op c = true).
  { intros c. destruct c; try (right; discriminate); left; unfold step;
      [rewrite exec_addProvider|rewrite exec_removeProvider|rewrite exec_setPaused];
      rewrite Ho; [destruct (rd false _ _)|destruct (rd false _ _)|destruct (eqb _ _)];
      destruct s; reflexivity. }
  split; [|split; [|split; [|split; [|split; [|split]]]]].
  - intros Hp. rewrite exec_addProvider, Ho, Hp. reflexivity.
  - intros Hp. rewrite exec_removeProvider, Ho, Hp. reflexivity.
  - intros Hp. rewrite exec_setPaused, Ho, Hp. reflexivity.
  - intros Hp. rewrite exec_setPaused, Ho, Hp. reflexivity.
  - unfold step. rewrite exec_addProvider, exec_removeProvider, !exec_setPaused, Ho.
    split; [|split; [|split]].
    + destruct (rd false (isProvider s) p) eqn:Hp; [exact Hp|].
      unfold rd. destruct s. cbn [set_isProvider isProvider].
      rewrite lookup_insert_eq. reflexivity.
    + destruct (rd false (isProvider s) p) eqn:Hp; [|exact Hp].
      unfold rd. destruct s. cbn [set_isProvider isProvider].
      rewrite lookup_insert_eq. reflexivity.
    + destruct (paused s) eqn:Hp; cbn [eqb]; [exact Hp|]. destruct s. reflexivity.
    + destruct (paused s) eqn:Hp; cbn [eqb]; [|exact Hp]. destruct s. reflexivity.
  - rewrite (exec_setPaused e' true).
    destruct (Hown (SetPaused true)) as [->|Hn]; [|exfalso; apply Hn; reflexivity].
    rewrite Ho'. unfold step. rewrite exec_setPaused, Ho.
    destruct (paused s) eqn:Hp; cbn [eqb]; [rewrite Hp; reflexivity|].
    destruct s. reflexivity.
  - split; [|split; [|split; [|split; [|split; [|split; [|split]]]]]].
    + intros Hp. rewrite exec_addProvider, Ho, Hp. reflexivity.
    + intros Hp. rewrite exec_removeProvider, Ho, Hp. reflexivity.
    + rewrite exec_setPaused, Ho, eqb_reflx. reflexivity.
    + rewrite exec_addProvider.
      destruct (Hown (AddProvider p)) as [->|Hn]; [|exfalso; apply Hn; reflexivity].
      rewrite Ho'. unfold step. rewrite exec_addProvider, Ho.
      destruct (rd false (isProvider s) p) eqn:Hp; [rewrite Hp; reflexivity|].
      unfold rd. destruct s. cbn [set_isProvider isProvider].
      rewrite lookup_insert_eq. reflexivity.
    + rewrite exec_removeProvider.
      destruct (Hown (RemoveProvider p)) as [->|Hn]; [|exfalso; apply Hn; reflexivity].
      rewrite Ho'. unfold step. rewrite exec_removeProvider, Ho.
      destruct (rd false (isProvider s) p) eqn:Hp; [|rewrite Hp; reflexivity].
      unfold rd. destruct s. cbn [set_isProvider isProvider].
      rewrite lookup_insert_eq. reflexivity.
    + rewrite exec_setPaused.
      destruct (Hown (SetPaused true)) as [->|Hn]; [|exfalso; apply Hn; reflexivity].
      rewrite Ho'. unfold step. rewrite exec_setPaused, Ho.
      destruct (paused s) eqn:Hp; cbn [eqb]; [rewrite Hp; reflexivity|].
      destruct s. reflexivity.
    + rewrite (exec_setPaused e' true).
      destruct (Hown (SetPaused true)) as [->|Hn]; [|exfalso; apply Hn; reflexivity].
      rewrite Ho'. unfold step. rewrite exec_setPaused, Ho.
      destruct (paused s) eqn:Hp; cbn [eqb]; [rewrite Hp; cbn; lia|].
      destruct s. cbn. lia.
    + intros c caller Hc.
      destruct c as [|p0|p0|flag| | | | | |]; try discriminate Hc; unfold step.
      * rewrite exec_addProvider. destruct (msg_sender caller =? owner s); [|cbn; split; [tauto|lia]].
        destruct (rd false (isProvider s) p0) eqn:Hp; cbn [emitted length]; [split; [tauto|lia]|].
        split; [|lia]. split; [discriminate|]. intros Heq. exfalso.
        revert Heq. apply set_isProvider_changes, insert_changes. rewrite Hp. discriminate.
      * rewrite exec_removeProvider.
        destruct (msg_sender caller =? owner s); [|cbn; split; [tauto|lia]].
        destruct (rd false (isProvider s) p0) eqn:Hp; cbn [emitted length]; [|split; [tauto|lia]].
        split; [|lia]. split; [discriminate|]. intros Heq. exfalso.
        revert Heq. apply set_isProvider_changes, insert_changes. rewrite Hp. discriminate.
      * rewrite exec_setPaused.
        destruct (msg_sender caller =? owner s); [|cbn; split; [tauto|lia]].
        destruct (eqb flag (paused s)) eqn:Hp; cbn [emitted length]; [split; [tauto|lia]|].
        split; [|lia]. split; [discriminate|]. intros Heq. exfalso.
        revert Heq. apply set_paused_changes. intros ->. rewrite eqb_reflx in Hp. discriminate.
Qed.

End Administration.

(** ** Errors and the cooldown gate *)

Section Gates.
Context {X : External}.

Lemma submitted_fields e a b c s :
  let cur := currentBatchId s in
  let batch := rd zeroBatch (batches s) cur in
  owner (submitted e a b c s) = owner s
  ∧ isProvider (submitted e a b c s) = isProvider s
  ∧ paused (submitted e a b c s) = paused s
  ∧ cooldownSeconds (submitted e a b c s) = cooldownSeconds s
  ∧ currentBatchId (submitted e a b c s) = cur
  ∧ lastSubmissionTime (submitted e a b c s)
    = <[msg_sender e := block_timestamp e]> (lastSubmissionTime s)
  ∧ batches (submitted e a b c s)
    = <[cur := mkBatch (id batch) (totalEncryptedDataPoints batch + 1) (closed batch)]>
        (batches s)
  ∧ batchEncryptedData (submitted e a b c s)
    = <[cur := rd [] (batchEncryptedData s) cur ++ [mkData a b c]]> (batchEncryptedData s).
Proof. unfold submitted. destruct s. storage_cbn. repeat split; reflexivity. Qed.




(** C6 (amended): for a caller that passes the authorisation and pause
    gates, a submission (a decryption request) reverts with [CooldownActive]
    exactly when [now < last + cooldownSeconds], provided that sum fits in a
    [uint256]; when it does not, the call reverts with the overflow panic.
    An accepted action records [now] as the caller's last action time.  After
    an accepted submission at [now], a second one before [now +
    cooldownSeconds] reverts with [CooldownActive], and one at or after it is
    accepted (the batch's record counter being below the [uint256] maximum). *)
Theorem cooldown_gate e a b c batch s :
  let lastS := rd 0 (lastSubmissionTime s) (msg_sender e) in
  let lastD := rd 0 (lastDecryptionRequestTime s) (msg_sender e) in
  let cd := cooldownSeconds s in
  let now := block_timestamp e in
  let submit := SubmitEncryptedData a b c in
  let request := RequestBatchAnalysis batch in
  (rd false (isProvider s) (msg_sender e) = true → paused s = false →
   (lastS + cd ≤ UINT256_MAX →
    (exec e submit s = Reverted CooldownActive ↔ now < lastS + cd))
   ∧ (UINT256_MAX < lastS + cd →
      exec e submit s = Reverted (Panic ARITHMETIC_OVERFLOW)))
  ∧ (msg_sender e = owner s → paused s = false →
     (lastD + cd ≤ UINT256_MAX →
      (exec e request s = Reverted CooldownActive ↔ now < lastD + cd))
     ∧ (UINT256_MAX < lastD + cd →
        exec e request s = Reverted (Panic ARITHMETIC_OVERFLOW)))
  ∧ (succeeded (exec e submit s) = true →
     rd 0 (lastSubmissionTime (step e submit s)) (msg_sender e) = now)
  ∧ (succeeded (exec e request s) = true →
     rd 0 (lastDecryptionRequestTime (step e request s)) (msg_sender e) = now)
  ∧ ∀ e2 e3 a' b' c',
      succeeded (exec e submit s) = true →
      msg_sender e2 = msg_sender e →
      msg_sender e3 = msg_sender e →
      now + cd ≤ UINT256_MAX →
      block_timestamp e2 < now + cd →
      now + cd ≤ block_timestamp e3 →
      totalEncryptedDataPoints
        (rd zeroBatch (batches (step e submit s)) (currentBatchId s)) < UINT256_MAX →
      exec e2 (SubmitEncryptedData a' b' c') (step e submit s) = Reverted CooldownActive
      ∧ succeeded (exec e3 submit (step e submit s)) = true.
Proof.
  cbv zeta.
  assert (Hsub : succeeded (exec e (SubmitEncryptedData a b c) s) = true →
          step e (SubmitEncryptedData a b c) s = submitted e a b c s
          ∧ rd false (isProvider s) (msg_sender e) = true
          ∧ paused s = false
          ∧ isInitialized a && isInitialized b && isInitialized c = true
          ∧ closed (rd zeroBatch (batches s) (currentBatchId s)) = false).
  { unfold step. rewrite exec_submitEncryptedData. cbv zeta.
    repeat case_match; try discriminate; intros _; simplify_eq.
    repeat match goal with H : negb _ = false |- _ => apply negb_false_iff in H end.
    auto. }
  split; [|split; [|split; [|split]]].
  - intros Hp Hnp. rewrite exec_submitEncryptedData. cbv zeta. rewrite Hp, Hnp. cbn [negb].
    split.
    + intros Hfit. apply N.leb_le in Hfit. rewrite Hfit. cbn [negb].
      destruct (N.ltb_spec (block_timestamp e)
        (rd 0 (lastSubmissionTime s) (msg_sender e) + cooldownSeconds s)) as [Hlt|Hge].
      * tauto.
      * split; [|lia]. repeat case_match; discriminate.
    + intros Hover. apply N.leb_gt in Hover. rewrite Hover. reflexivity.
  - intros Ho Hnp. apply N.eqb_eq in Ho.
    rewrite exec_requestBatchAnalysis. cbv zeta. rewrite Ho, Hnp. cbn [negb].
    split.
    + intros Hfit. apply N.leb_le in Hfit. rewrite Hfit. cbn [negb].
      destruct (N.ltb_spec (block_timestamp e)
        (rd 0 (lastDecryptionRequestTime s) (msg_sender e) + cooldownSeconds s)) as [Hlt|Hge].
      * tauto.
      * split; [|lia]. repeat case_match; discriminate.
    + intros Hover. apply N.leb_gt in Hover. rewrite Hover. reflexivity.
  - intros Hs. destruct (Hsub Hs) as (-> & _).
    destruct (submitted_fields e a b c s) as (_ & _ & _ & _ & _ & -> & _).
    unfold rd. rewrite lookup_insert_eq. reflexivity.
  - unfold step. rewrite exec_requestBatchAnalysis. cbv zeta.
    repeat case_match; try discriminate; intros _; simplify_eq.
    unfold requested, rd. destruct s. storage_cbn.
    rewrite lookup_insert_eq. reflexivity.
  - intros e2 e3 a' b' c' Hs H2 H3 Hfit Hlt Hge Htot.
    destruct (Hsub Hs) as (Hstep & Hp & Hnp & Hinit & Hcl). rewrite Hstep in *.
    assert (Hfields : isProvider (submitted e a b c s) = isProvider s
              ∧ paused (submitted e a b c s) = paused s
              ∧ cooldownSeconds (submitted e a b c s) = cooldownSeconds s
              ∧ currentBatchId (submitted e a b c s) = currentBatchId s
              ∧ rd 0 (lastSubmissionTime (submitted e a b c s)) (msg_sender e)
                = block_timestamp e
              ∧ closed (rd zeroBatch (batches (submitted e a b c s)) (currentBatchId s))
                = closed (rd zeroBatch (batches s) (currentBatchId s))).
    { destruct (submitted_fields e a b c s) as (_ & -> & -> & -> & -> & -> & -> & _).
      unfold rd. rewrite !lookup_insert_eq. repeat split; reflexivity. }
    destruct Hfields as (Hf1 & Hf2 & Hf3 & Hf4 & Hf5 & Hf6).
    rewrite !exec_submitEncryptedData. cbv zeta.
    rewrite Hf1, Hf2, Hf3, Hf4, H2, H3, Hf5, Hp, Hnp, Hf6, Hcl, Hinit. cbn [negb].
    apply N.leb_le in Hfit. rewrite Hfit. cbn [negb].
    apply N.ltb_lt in Hlt. rewrite Hlt.
    split; [reflexivity|].
    apply N.ltb_ge in Hge. rewrite Hge.
    assert (Hok : (totalEncryptedDataPoints
                     (rd zeroBatch (batches (submitted e a b c s)) (currentBatchId s)) + 1
                   <=? UINT256_MAX) = true) by (apply N.leb_le; lia).
    rewrite Hok. reflexivity.
Qed.

End Gates.

(** ** The batch ledger along a history *)

Section Ledger.
Context {X : External}.

Lemma ledger_inv_ext s cnt cnt' :
  (∀ b, cnt b = cnt' b) → ledger_inv s cnt → ledger_inv s cnt'.
Proof.
  intros Heq (H1 & H2 & H3 & H4). repeat split; intros; rewrite <- ?Heq; auto.
Qed.

Lemma ledger_inv_frame s s' cnt :
  batches s' = batches s →
  batchEncryptedData s' = batchEncryptedData s →
  currentBatchId s' = currentBatchId s →
  ledger_inv s cnt → ledger_inv s' cnt.
Proof. unfold ledger_inv. intros -> -> ->. auto. Qed.

Lemma rd_insert {V} (d : V) (m : gmap N V) k v j :
  rd d (<[k := v]> m) j = if decide (k = j) then v else rd d m j.
Proof. unfold rd. rewrite lookup_insert. destruct (decide (k = j)); reflexivity. Qed.

Lemma ledger_inv_step e c s cnt :
  ledger_inv s cnt → ledger_inv (step e c s) (λ b, (cnt b + counted e c s b)%nat).
Proof.
  intros Hinv.
  assert (Hkeep : ledger_inv s (λ b, (cnt b + 0)%nat)).
  { eapply ledger_inv_ext; [|exact Hinv]. intros b. lia. }
  destruct Hinv as (H1 & H2 & H3 & H4).
  unfold step, counted.
  destruct c; cbn [is_submit andb];
    [rewrite exec_transferOwnership|rewrite exec_addProvider|rewrite exec_removeProvider
    |rewrite exec_setPaused|rewrite exec_setCooldownSeconds|rewrite exec_openBatch
    |rewrite exec_closeBatch|rewrite exec_submitEncryptedData
    |rewrite exec_requestBatchAnalysis|rewrite exec_myCallback];
    cbv zeta; repeat case_match; simplify_eq; cbn [succeeded andb];
    try exact Hkeep;
    try (eapply ledger_inv_frame; [| | |exact Hkeep]; destruct s; reflexivity).
  - (* openBatch *)
    match goal with H : negb (_ <=? _) = false |- _ =>
      apply negb_false_iff, N.leb_le in H end.
    assert (Hnew : cnt (currentBatchId s + 1) = 0%nat) by (apply H3; lia).
    unfold ledger_inv. revert H1 H2 H3 H4 Hnew. destruct s. storage_cbn.
    intros H1 H2 H3 H4 Hnew.
    repeat split.
    + intros b. rewrite rd_insert. destruct (decide _) as [<-|Hne].
      * cbn [totalEncryptedDataPoints]. rewrite Hnew. reflexivity.
      * rewrite H1. f_equal. lia.
    + intros b. rewrite H2. lia.
    + intros b Hb. rewrite H3 by lia. reflexivity.
    + rewrite rd_insert. destruct (decide _) as [Heq|Hne]; [lia|exact H4].
  - (* closeBatch *)
    match goal with H : _ || _ || _ = false |- _ =>
      apply orb_false_iff in H as [H _]; apply orb_false_iff in H as [H _];
      apply N.eqb_neq in H; rename H into Hb0 end.
    unfold ledger_inv. revert H1 H2 H3 H4. destruct s. storage_cbn.
    intros H1 H2 H3 H4.
    repeat split.
    + intros b. rewrite rd_insert. destruct (decide _) as [<-|Hne].
      * cbn [totalEncryptedDataPoints]. rewrite H1. f_equal. lia.
      * rewrite H1. f_equal. lia.
    + intros b. rewrite H2. lia.
    + intros b Hb. rewrite H3 by lia. reflexivity.
    + rewrite rd_insert. destruct (decide _) as [Heq|Hne]; [congruence|exact H4].
  - (* an accepted submission into the batch counted *)
    destruct (submitted_fields e a b c s) as (_ & _ & _ & _ & Hc & _ & Hbs & Hds).
    unfold ledger_inv. rewrite Hc, Hbs, Hds. clear Hc Hbs Hds.
    repeat split.
    + intros b'. rewrite rd_insert. destruct (decide _) as [<-|Hne].
      * cbn [totalEncryptedDataPoints]. rewrite H1.
        destruct (N.eqb_spec (currentBatchId s) (currentBatchId s)); [lia|congruence].
      * rewrite H1. destruct (N.eqb_spec (currentBatchId s) b'); [congruence|]. f_equal. lia.
    + intros b'. rewrite rd_insert. destruct (decide _) as [<-|Hne].
      * rewrite length_app, H2. cbn [length].
        destruct (N.eqb_spec (currentBatchId s) (currentBatchId s)); [lia|congruence].
      * rewrite H2. destruct (N.eqb_spec (currentBatchId s) b'); [congruence|lia].
    + intros b' Hb'. rewrite H3 by lia.
      destruct (N.eqb_spec (currentBatchId s) b'); [lia|reflexivity].
    + rewrite rd_insert. destruct (decide _) as [Heq|Hne]; [|exact H4].
      cbn [closed]. rewrite Heq. exact H4.
Qed.

Lemma accepted_submits_cons b s e c tr :
  accepted_submits b s ((e, c) :: tr)
  = (counted e c s b + accepted_submits b (step e c s) tr)%nat.
Proof. reflexivity. Qed.

Lemma ledger_inv_run tr : ∀ s cnt,
  ledger_inv s cnt →
  ledger_inv (run s tr) (λ b, (cnt b + accepted_submits b s tr)%nat).
Proof.
  induction tr as [|[e c] tr IH]; intros s cnt Hinv.
  - eapply ledger_inv_ext; [|exact Hinv]. intros b. cbn. lia.
  - cbn [run]. eapply ledger_inv_ext; [|apply IH, (ledger_inv_step e c), Hinv].
    intros b. cbv beta. rewrite accepted_submits_cons. lia.
Qed.

Lemma ledger_inv_deployed deployer o : ledger_inv (deployed deployer o) (λ _, 0%nat).
Proof. repeat split. Qed.

Lemma ledger_inv_history deployer o tr :
  ledger_inv (run (deployed deployer o) tr) (λ b, accepted_submits b (deployed deployer o) tr).
Proof.
  eapply ledger_inv_ext; [|apply ledger_inv_run, ledger_inv_deployed].
  intros b. reflexivity.
Qed.

Lemma accepted_submits_le_length b tr : ∀ s, (accepted_submits b s tr ≤ length tr)%nat.
Proof.
  induction tr as [|[e c] tr IH]; intros s; [cbn; lia|].
  rewrite accepted_submits_cons. cbn [length]. specialize (IH (step e c s)).
  unfold counted. destruct (_ && _ && _); lia.
Qed.

(** C4: after any history run from deployment, the record count of every
    batch is the number of submissions accepted for it, and so is the length
    of its record list; a submission is rejected when the caller is no
    provider, the contract is paused, the cooldown is active, a ciphertext is
    not initialised or the current batch is closed, and a rejected submission
    leaves the whole storage, hence every count and every record list, as it
    was. *)
Theorem recordCount_counts_accepted_submissions deployer o tr b e x y z s :
  let genesis := deployed deployer o in
  let final := run genesis tr in
  let submit := SubmitEncryptedData x y z in
  let limit := rd 0 (lastSubmissionTime s) (msg_sender e) + cooldownSeconds s in
  totalEncryptedDataPoints (rd zeroBatch (batches final) b)
    = N.of_nat (accepted_submits b genesis tr)
  ∧ length (rd [] (batchEncryptedData final) b) = accepted_submits b genesis tr
  ∧ (closed (rd zeroBatch (batches s) (currentBatchId s)) = true
     ∨ rd false (isProvider s) (msg_sender e) = false
     ∨ paused s = true
     ∨ block_timestamp e < limit
     ∨ isInitialized x && isInitialized y && isInitialized z = false →
     succeeded (exec e submit s) = false)
  ∧ (succeeded (exec e submit s) = false →
     step e submit s = s
     ∧ ∀ b', rd zeroBatch (batches (step e submit s)) b' = rd zeroBatch (batches s) b'
             ∧ rd [] (batchEncryptedData (step e submit s)) b'
               = rd [] (batchEncryptedData s) b')
  ∧ (succeeded (exec e submit s) = true →
     step e submit s = submitted e x y z s
     ∧ totalEncryptedDataPoints
         (rd zeroBatch (batches (step e submit s)) (currentBatchId s))
       = totalEncryptedDataPoints (rd zeroBatch (batches s) (currentBatchId s)) + 1
     ∧ rd [] (batchEncryptedData (step e submit s)) (currentBatchId s)
       = rd [] (batchEncryptedData s) (currentBatchId s) ++ [mkData x y z]).
Proof.
  cbv zeta. destruct (ledger_inv_history deployer o tr) as (H1 & H2 & _ & _).
  split; [apply H1|]. split; [apply H2|]. split; [|split].
  - rewrite exec_submitEncryptedData. cbv zeta.
    intros [Hc|[Hp|[Hp|[Hlt|Hi]]]].
    + rewrite Hc. repeat case_match; reflexivity.
    + rewrite Hp. reflexivity.
    + rewrite Hp. repeat case_match; reflexivity.
    + apply N.ltb_lt in Hlt. rewrite Hlt. repeat case_match; reflexivity.
    + rewrite Hi. cbn [negb]. repeat case_match; reflexivity.
  - intros Hrej. assert (Hs : step e (SubmitEncryptedData x y z) s = s).
    { unfold step. destruct (exec _ _ _); [discriminate Hrej|reflexivity]. }
    rewrite Hs. auto.
  - unfold step. rewrite exec_submitEncryptedData. cbv zeta.
    repeat case_match; try discriminate; intros _; simplify_eq.
    destruct (submitted_fields e x y z s) as (_ & _ & _ & _ & _ & _ & -> & ->).
    rewrite !rd_insert. destruct (decide _); [|congruence]. auto.
Qed.

Lemma exec_requestBatchAnalysis_zero e s :
  succeeded (exec e (RequestBatchAnalysis 0) s) = false.
Proof.
  rewrite exec_requestBatchAnalysis. cbv zeta. cbn [N.eqb orb].
  repeat case_match; reflexivity.
Qed.

(** C9: in a state reached from deployment in which no batch was opened
    ([currentBatchId = 0]), a submission by a provider, unpaused, off cooldown
    and with initialised ciphertexts does not revert with
    [BatchClosedOrInvalid]: it is accepted, appends the record under batch id
    0 and increments the count of batch 0.  An accepted [openBatch] creates
    batch [currentBatchId + 1] and leaves entry 0 alone, and
    [requestBatchAnalysis 0] never succeeds; past its gates it reverts with
    [InvalidBatchId].  (The history is shorter than the [uint256]
    maximum, so that the counter cannot overflow.) *)
Theorem submission_into_batch_zero deployer o tr e x y z :
  let s := run (deployed deployer o) tr in
  let submit := SubmitEncryptedData x y z in
  N.of_nat (length tr) < UINT256_MAX →
  currentBatchId s = 0 →
  rd false (isProvider s) (msg_sender e) = true →
  paused s = false →
  rd 0 (lastSubmissionTime s) (msg_sender e) + cooldownSeconds s ≤ block_timestamp e →
  block_timestamp e ≤ UINT256_MAX →
  isInitialized x = true → isInitialized y = true → isInitialized z = true →
  exec e submit s ≠ Reverted BatchClosedOrInvalid
  ∧ exec e submit s = Success (submitted e x y z s) [DataSubmitted (msg_sender e) 0 1]
  ∧ rd [] (batchEncryptedData (submitted e x y z s)) 0
    = rd [] (batchEncryptedData s) 0 ++ [mkData x y z]
  ∧ totalEncryptedDataPoints (rd zeroBatch (batches (submitted e x y z s)) 0)
    = totalEncryptedDataPoints (rd zeroBatch (batches s) 0) + 1
  ∧ (∀ e' s', succeeded (exec e' OpenBatch s') = true →
       currentBatchId (step e' OpenBatch s') = currentBatchId s' + 1
       ∧ batches (step e' OpenBatch s') !! 0 = batches s' !! 0)
  ∧ (∀ e' s', succeeded (exec e' (RequestBatchAnalysis 0) s') = false)
  ∧ (∀ e' s', msg_sender e' = owner s' → paused s' = false →
       rd 0 (lastDecryptionRequestTime s') (msg_sender e') + cooldownSeconds s'
         ≤ block_timestamp e' →
       block_timestamp e' ≤ UINT256_MAX →
       exec e' (RequestBatchAnalysis 0) s' = Reverted InvalidBatchId).
Proof.
  cbv zeta. intros Hlen Hcur Hp Hnp Hcd Hnow Hx Hy Hz.
  destruct (ledger_inv_history deployer o tr) as (H1 & _ & _ & H4).
  pose proof (accepted_submits_le_length 0 tr (deployed deployer o)) as Hle.
  specialize (H1 0).
  assert (Hx' : exec e (SubmitEncryptedData x y z) (run (deployed deployer o) tr)
                = Success (submitted e x y z (run (deployed deployer o) tr))
                    [DataSubmitted (msg_sender e) 0 1]).
  { rewrite exec_submitEncryptedData. cbv zeta.
    rewrite Hp, Hnp, Hx, Hy, Hz, Hcur, H4, H1. cbn [negb andb].
    destruct (N.leb_spec (rd 0 (lastSubmissionTime (run (deployed deployer o) tr))
                            (msg_sender e)
                          + cooldownSeconds (run (deployed deployer o) tr)) UINT256_MAX);
      [|lia]. cbn [negb].
    destruct (N.ltb_spec (block_timestamp e)
                (rd 0 (lastSubmissionTime (run (deployed deployer o) tr)) (msg_sender e)
                 + cooldownSeconds (run (deployed deployer o) tr))); [lia|].
    destruct (N.leb_spec (N.of_nat (accepted_submits 0 (deployed deployer o) tr) + 1)
                UINT256_MAX); [|lia].
    reflexivity. }
  rewrite Hx'.
  destruct (submitted_fields e x y z (run (deployed deployer o) tr))
    as (_ & _ & _ & _ & _ & _ & -> & ->).
  rewrite Hcur, !rd_insert. destruct (decide (0 = 0)); [|congruence].
  cbn [totalEncryptedDataPoints].
  split; [discriminate|]. split; [reflexivity|]. split; [reflexivity|].
  split; [reflexivity|]. split; [|split].
  - intros e' s'. unfold step. rewrite exec_openBatch. cbv zeta.
    destruct (negb (msg_sender e' =? owner s')); [discriminate|].
    destruct (paused s'); [discriminate|].
    destruct (negb (currentBatchId s' + 1 <=? UINT256_MAX)); [discriminate|].
    intros _. destruct s'. storage_cbn. split; [reflexivity|].
    apply lookup_insert_ne. lia.
  - intros e' s'. apply exec_requestBatchAnalysis_zero.
  - intros e' s' Ho Hnp' Hcd' Hnow'. apply N.eqb_eq in Ho.
    rewrite exec_requestBatchAnalysis. cbv zeta. rewrite Ho, Hnp'. cbn [negb N.eqb orb].
    destruct (N.leb_spec (rd 0 (lastDecryptionRequestTime s') (msg_sender e')
                          + cooldownSeconds s') UINT256_MAX); [|lia]. cbn [negb].
    destruct (N.ltb_spec (block_timestamp e')
                (rd 0 (lastDecryptionRequestTime s') (msg_sender e') + cooldownSeconds s'));
      [lia|reflexivity].
Qed.

End Ledger.

(** ** The theorems at concrete inputs *)

Section Instances.
Import Demo.
#[local] Existing Instance Demo.toy.

(** A second callback for the completed request 7. *)
Lemma replay_is_rejected_witness :
  exec (at_time carol 160) (MyCallback 7 answer [x01]) completed = Reverted ReplayAttempt
  ∧ step (at_time carol 160) (MyCallback 7 answer [x01]) completed = completed.
Proof.
  apply (replay_is_rejected (X := toy) (at_time carol 160) 7 answer [x01] completed).
  vm_compute. reflexivity.
Defined.

(** The request for the closed batch 1 is issued id 7. *)
Lemma requestBatchAnalysis_spec_witness :
  exec (at_time alice 140) (RequestBatchAnalysis 1) closed_batch
  = Success (requested (at_time alice 140) 1 closed_batch)
      [DecryptionRequested 7 1 4096036896110820111028]
  ∧ rd zeroContext (decryptionContexts (requested (at_time alice 140) 1 closed_batch)) 7
    = mkContext 1 4096036896110820111028 false.
Proof.
  apply (requestBatchAnalysis_spec (X := toy) (at_time alice 140) 1 closed_batch).
  - vm_compute. reflexivity.
  - vm_compute. reflexivity.
  - vm_compute. discriminate.
  - vm_compute. discriminate.
  - vm_compute. intros [H|[H|[H|H]]]; discriminate H.
Defined.

(** Batch 1 counts its two records; a submission after closure is rejected. *)
Lemma recordCount_counts_accepted_submissions_witness :
  totalEncryptedDataPoints (rd zeroBatch (batches pending) 1) = 2
  ∧ length (rd [] (batchEncryptedData pending) 1) = 2%nat
  ∧ succeeded (exec (at_time bob 150) (SubmitEncryptedData 5 6 7) pending) = false.
Proof.
  destruct (recordCount_counts_accepted_submissions (X := toy) alice 7 history_request 1
              (at_time bob 150) 5 6 7 pending) as (H1 & H2 & H3 & _).
  split; [exact H1|]. split; [exact H2|].
  apply H3. left. vm_compute. reflexivity.
Defined.

(** The fingerprint of batch 1 before and after the request. *)
Lemma aggregation_is_reentrant_witness :
  fingerprint closed_batch 1 = fingerprint pending 1
  ∧ exec (at_time carol 150) (MyCallback 7 answer [x01]) pending ≠ Reverted StateMismatch.
Proof.
  destruct (aggregation_is_reentrant (X := toy) closed_batch pending 1 [] []) as (_ & _ & Hf & Hcb).
  - vm_compute. reflexivity.
  - split; [exact Hf|]. apply Hcb. vm_compute. reflexivity.
Defined.

(** With a cooldown of 60: accepted at 1000, rejected at 1030, accepted at 1060. *)
Lemma cooldown_gate_witness :
  exec (at_time bob 1030) (SubmitEncryptedData 8 9 10)
    (step (at_time bob 1000) (SubmitEncryptedData 5 6 7) rate_limited)
  = Reverted CooldownActive
  ∧ succeeded (exec (at_time bob 1060) (SubmitEncryptedData 5 6 7)
                 (step (at_time bob 1000) (SubmitEncryptedData 5 6 7) rate_limited)) = true.
Proof.
  destruct (cooldown_gate (X := toy) (at_time bob 1000) 5 6 7 1 rate_limited) as (_ & _ & _ & _ & H).
  apply (H (at_time bob 1030) (at_time bob 1060) 8 9 10).
  - vm_compute. reflexivity.
  - reflexivity.
  - reflexivity.
  - vm_compute. discriminate.
  - vm_compute. reflexivity.
  - vm_compute. discriminate.
  - vm_compute. reflexivity.
Defined.

(** The first pause emits [ContractPaused]; the second is silent. *)
Lemma access_control_idempotent_witness :
  exec (at_time alice 100) (SetPaused true) genesis
  = Success (set_paused true genesis) [ContractPaused alice]
  ∧ exec (at_time alice 200) (SetPaused true)
      (step (at_time alice 100) (SetPaused true) genesis)
    = Success (step (at_time alice 100) (SetPaused true) genesis) []
  ∧ exec (at_time alice 100) (AddProvider bob) genesis
    = Success (set_isProvider (<[bob := true]> (isProvider genesis)) genesis)
        [ProviderAdded bob].
Proof.
  destruct (access_control_idempotent (X := toy) (at_time alice 100) (at_time alice 200)
              bob genesis)
    as (Hadd & _ & Hpause & _ & _ & _ & _ & _ & _ & _ & _ & Hagain & _).
  - reflexivity.
  - reflexivity.
  - split; [apply Hpause; reflexivity|]. split; [exact Hagain|].
    apply Hadd. vm_compute. reflexivity.
Defined.


(** Bob submits before any batch is opened. *)
Lemma submission_into_batch_zero_witness :
  exec (at_time bob 1000) (SubmitEncryptedData 5 6 7)
    (run genesis [(at_time alice 100, AddProvider bob)])
  = Success batchless [DataSubmitted bob 0 1]
  ∧ totalEncryptedDataPoints (rd zeroBatch (batches batchless) 0) = 1.
Proof.
  destruct (submission_into_batch_zero (X := toy) alice 7 [(at_time alice 100, AddProvider bob)]
              (at_time bob 1000) 5 6 7) as (_ & Hx & _ & Ht & _).
  - vm_compute. reflexivity.
  - vm_compute. reflexivity.
  - vm_compute. reflexivity.
  - vm_compute. reflexivity.
  - vm_compute. discriminate.
  - vm_compute. discriminate.
  - vm_compute. reflexivity.
  - vm_compute. reflexivity.
  - vm_compute. reflexivity.
  - split.
    + etransitivity; [exact Hx|]. vm_compute. reflexivity.
    + etransitivity; [exact Ht|]. vm_compute. reflexivity.
Defined.

(** C6, as stated, fails: Bob is a provider, the contract is not paused and
    [now < lastSubmissionTime + cooldownSeconds], yet his submission reverts
    with the overflow panic, not with [CooldownActive]. *)
Lemma cooldown_sum_overflow_counterexample :
  rd false (isProvider saturated) bob = true
  ∧ paused saturated = false
  ∧ 2000 < rd 0 (lastSubmissionTime saturated) bob + cooldownSeconds saturated
  ∧ exec (at_time bob 2000) (SubmitEncryptedData 5 6 7) saturated
    = Reverted (Panic ARITHMETIC_OVERFLOW)
  ∧ exec (at_time bob 2000) (SubmitEncryptedData 5 6 7) saturated
    ≠ Reverted CooldownActive.
Proof.
  split; [vm_compute; reflexivity|]. split; [vm_compute; reflexivity|].
  split; [vm_compute; reflexivity|]. split; [vm_compute; reflexivity|].
  vm_compute. discriminate.
Qed.


End Instances.

(** ** Invariants of reachable states *)

Section WellFormed.
Context {X : External}.

Lemma fingerprint_frame s s' b :
  batchEncryptedData s' = batchEncryptedData s → fingerprint s' b = fingerprint s b.
Proof. unfold fingerprint. intros ->. reflexivity. Qed.

Lemma well_formed_frame s s' :
  currentBatchId s' = currentBatchId s →
  batches s' = batches s →
  batchEncryptedData s' = batchEncryptedData s →
  decryptionContexts s' = decryptionContexts s →
  well_formed s → well_formed s'.
Proof.
  unfold well_formed, fingerprint. intros -> -> -> ->. auto.
Qed.

Lemma well_formed_deployed deployer o : well_formed (deployed deployer o).
Proof.
  unfold well_formed, deployed, constructor. cbn.
  split; [|split; [|split; [|split]]].
  - intros b _. split; apply lookup_empty.
  - intros b Hb. exfalso. lia.
  - intros b batch H. rewrite lookup_empty in H. discriminate.
  - reflexivity.
  - intros r ctx H. rewrite lookup_empty in H. discriminate.
Qed.

Lemma closed_in_range s b :
  well_formed s → closed (rd zeroBatch (batches s) b) = true → 1 ≤ b ≤ currentBatchId s.
Proof.
  intros (W1 & _ & _ & W4 & _) Hc.
  destruct (N.eq_dec b 0) as [->|Hb]; [congruence|].
  destruct (N.le_gt_cases b (currentBatchId s)) as [Hle|Hgt]; [lia|].
  destruct (W1 b Hgt) as [Hn _]. unfold rd in Hc. rewrite Hn in Hc. discriminate.
Qed.

Lemma submitted_contexts e a b c s :
  decryptionContexts (submitted e a b c s) = decryptionContexts s.
Proof. unfold submitted. destruct s. reflexivity. Qed.

Lemma well_formed_step e c s : well_formed s → well_formed (step e c s).
Proof.
  intros Hwf. pose proof (closed_in_range s) as Hrange.
  destruct Hwf as (W1 & W2 & W3 & W4 & W5).
  assert (Hwf : well_formed s) by (repeat split; auto; apply W1; auto).
  unfold step.
  destruct c;
    [rewrite exec_transferOwnership|rewrite exec_addProvider|rewrite exec_removeProvider
    |rewrite exec_setPaused|rewrite exec_setCooldownSeconds|rewrite exec_openBatch
    |rewrite exec_closeBatch|rewrite exec_submitEncryptedData
    |rewrite exec_requestBatchAnalysis|rewrite exec_myCallback];
    cbv zeta; repeat case_match; simplify_eq;
    try exact Hwf;
    try (eapply well_formed_frame; [| | | |exact Hwf]; destruct s; reflexivity).
  - (* openBatch *)
    unfold well_formed, fingerprint in *. revert W1 W2 W3 W4 W5 Hrange. clear Hwf.
    destruct s. storage_cbn. intros W1 W2 W3 W4 W5 Hrange.
    split; [|split; [|split; [|split]]].
    + intros b Hb. rewrite lookup_insert_ne by lia. apply W1. lia.
    + intros b Hb. destruct (N.eq_dec b (currentBatchId0 + 1)) as [->|Hne].
      * rewrite lookup_insert_eq. eauto.
      * rewrite lookup_insert_ne by lia. apply W2. lia.
    + intros b batch. destruct (N.eq_dec b (currentBatchId0 + 1)) as [->|Hne].
      * rewrite lookup_insert_eq. intros [= <-]. reflexivity.
      * rewrite lookup_insert_ne by lia. apply W3.
    + rewrite rd_insert. destruct (decide _); [lia|exact W4].
    + intros r ctx Hr. destruct (W5 r ctx Hr) as [Hp|(Hb & Hc & Hh)]; [left; exact Hp|].
      right. rewrite rd_insert. destruct (decide _); [lia|]. repeat split; auto; lia.
  - (* closeBatch *)
    match goal with H : _ || _ || _ = false |- _ =>
      apply orb_false_iff in H as [H Hcl]; apply orb_false_iff in H as [Hb0 Hle];
      apply N.eqb_neq in Hb0; apply N.ltb_ge in Hle end.
    unfold well_formed, fingerprint in *. revert W1 W2 W3 W4 W5 Hrange Hcl Hle. clear Hwf.
    destruct s. storage_cbn. intros W1 W2 W3 W4 W5 Hrange Hcl Hle.
    split; [|split; [|split; [|split]]].
    + intros b Hb. rewrite lookup_insert_ne by lia. apply W1. lia.
    + intros b Hb. destruct (N.eq_dec b batch) as [->|Hne].
      * rewrite lookup_insert_eq. eauto.
      * rewrite lookup_insert_ne by congruence. apply W2. lia.
    + intros b bt. destruct (N.eq_dec b batch) as [->|Hne].
      * rewrite lookup_insert_eq. intros [= <-]. cbn [id].
        destruct (W2 batch) as [b0 Hb0']; [lia|]. unfold rd. rewrite Hb0'. cbn.
        apply (W3 _ _ Hb0').
      * rewrite lookup_insert_ne by congruence. apply W3.
    + rewrite rd_insert. destruct (decide _); [congruence|exact W4].
    + intros r ctx Hr. destruct (W5 r ctx Hr) as [Hp|(Hb & Hc & Hh)]; [left; exact Hp|].
      right. rewrite rd_insert. destruct (decide _); repeat split; auto; lia.
  - (* submitEncryptedData *)
    destruct (submitted_fields e a b c s) as (_ & _ & _ & _ & Hc & _ & Hbs & Hds).
    unfold well_formed, fingerprint. rewrite Hc, Hbs, Hds, submitted_contexts.
    clear Hc Hbs Hds.
    match goal with H : closed _ = false |- _ => rename H into Hopen end.
    split; [|split; [|split; [|split]]].
    + intros b' Hb. rewrite !lookup_insert_ne by lia. apply W1. lia.
    + intros b' Hb. destruct (N.eq_dec b' (currentBatchId s)) as [->|Hne].
      * rewrite lookup_insert_eq. eauto.
      * rewrite lookup_insert_ne by congruence. apply W2. lia.
    + intros b' bt. destruct (N.eq_dec b' (currentBatchId s)) as [->|Hne].
      * rewrite lookup_insert_eq. intros [= <-]. cbn [id].
        unfold rd. destruct (batches s !! currentBatchId s) as [b0|] eqn:Hb0.
        -- cbn. apply (W3 _ _ Hb0).
        -- cbn. destruct (N.eq_dec (currentBatchId s) 0) as [Hz|Hz]; [congruence|].
           destruct (W2 (currentBatchId s)) as [? ?]; [lia|congruence].
      * rewrite lookup_insert_ne by congruence. apply W3.
    + rewrite rd_insert. destruct (decide _) as [Heq|Hne]; [|exact W4].
      cbn [closed]. exact Hopen.
    + intros r ctx Hr. destruct (W5 r ctx Hr) as [Hp|(Hb & Hcl & Hh)]; [left; exact Hp|].
      right. assert (Hne : currentBatchId s ≠ batchId ctx) by congruence.
      rewrite !rd_insert. repeat (destruct (decide _); [congruence|]).
      repeat split; auto; lia.
  - (* requestBatchAnalysis *)
    match goal with H : _ || _ || _ = false |- _ =>
      apply orb_false_iff in H as [H Hcl]; apply orb_false_iff in H as [Hb0 Hle];
      apply N.eqb_neq in Hb0; apply N.ltb_ge in Hle; apply negb_false_iff in Hcl end.
    unfold well_formed, requested, fingerprint in *.
    revert W1 W2 W3 W4 W5 Hrange Hcl Hle. clear Hwf.
    destruct s. storage_cbn. intros W1 W2 W3 W4 W5 Hrange Hcl Hle.
    split; [exact W1|]. split; [exact W2|]. split; [exact W3|]. split; [exact W4|].
    intros r ctx. rewrite lookup_insert. destruct (decide _) as [Heq|Hne].
    + intros [= <-]. right. cbn [batchId stateHash]. repeat split; auto; lia.
    + apply W5.
  - (* myCallback *)
    unfold well_formed, complete, fingerprint in *.
    revert W1 W2 W3 W4 W5 Hrange. clear Hwf.
    destruct s. storage_cbn. intros W1 W2 W3 W4 W5 Hrange.
    split; [exact W1|]. split; [exact W2|]. split; [exact W3|]. split; [exact W4|].
    intros r ctx. rewrite lookup_insert. destruct (decide _) as [Heq|Hne].
    + intros [= <-]. left. reflexivity.
    + apply W5.
Qed.

Lemma well_formed_run tr : ∀ s, well_formed s → well_formed (run s tr).
Proof.
  induction tr as [|[e c] tr IH]; intros s Hwf; [exact Hwf|].
  cbn [run]. apply IH, well_formed_step, Hwf.
Qed.

Lemma well_formed_history deployer o tr : well_formed (run (deployed deployer o) tr).
Proof. apply well_formed_run, well_formed_deployed. Qed.

End WellFormed.

(** ** Frozen batches *)

Section Frozen.
Context {X : External}.

(** A closed batch of a well-formed ledger is left alone by every call. *)
Lemma closed_step e c s b :
  well_formed s →
  closed (rd zeroBatch (batches s) b) = true →
  rd zeroBatch (batches (step e c s)) b = rd zeroBatch (batches s) b
  ∧ rd [] (batchEncryptedData (step e c s)) b = rd [] (batchEncryptedData s) b.
Proof.
  intros Hwf Hcl. pose proof (closed_in_range s b Hwf Hcl) as Hb.
  unfold step.
  destruct c;
    [rewrite exec_transferOwnership|rewrite exec_addProvider|rewrite exec_removeProvider
    |rewrite exec_setPaused|rewrite exec_setCooldownSeconds|rewrite exec_openBatch
    |rewrite exec_closeBatch|rewrite exec_submitEncryptedData
    |rewrite exec_requestBatchAnalysis|rewrite exec_myCallback];
    cbv zeta; repeat case_match; simplify_eq;
    try (split; reflexivity);
    try (destruct s; split; reflexivity).
  - revert Hb. destruct s. storage_cbn. intros Hb.
    rewrite rd_insert. destruct (decide _); [lia|]. split; reflexivity.
  - match goal with H : _ || _ || _ = false |- _ =>
      apply orb_false_iff in H as [_ Hopen] end.
    revert Hopen Hcl. destruct s. storage_cbn. intros Hopen Hcl.
    rewrite rd_insert. destruct (decide _) as [->|Hne]; [congruence|]. split; reflexivity.
  - destruct (submitted_fields e a b0 c s) as (_ & _ & _ & _ & _ & _ & -> & ->).
    rewrite !rd_insert.
    repeat (destruct (decide _) as [Heq|Hne]; [rewrite Heq in *; congruence|]).
    split; reflexivity.
Qed.

Lemma closed_run tr : ∀ s b,
  well_formed s →
  closed (rd zeroBatch (batches s) b) = true →
  rd zeroBatch (batches (run s tr)) b = rd zeroBatch (batches s) b
  ∧ rd [] (batchEncryptedData (run s tr)) b = rd [] (batchEncryptedData s) b.
Proof.
  induction tr as [|[e c] tr IH]; intros s b Hwf Hcl; [split; reflexivity|].
  cbn [run]. destruct (closed_step e c s b Hwf Hcl) as [Hb Hd].
  destruct (IH (step e c s) b) as [Hb' Hd'].
  - apply well_formed_step, Hwf.
  - rewrite Hb. exact Hcl.
  - rewrite Hb', Hd', Hb, Hd. split; reflexivity.
Qed.

(** X5: once a batch is closed in a state reached from deployment, no
    later history changes it: it stays closed, keeps its count and its record
    list, and so keeps its fingerprint. *)
Theorem closed_batch_is_frozen deployer o tr tr' b :
  closed (rd zeroBatch (batches (run (deployed deployer o) tr)) b) = true →
  rd zeroBatch (batches (run (run (deployed deployer o) tr) tr')) b
    = rd zeroBatch (batches (run (deployed deployer o) tr)) b
  ∧ rd [] (batchEncryptedData (run (run (deployed deployer o) tr) tr')) b
    = rd [] (batchEncryptedData (run (deployed deployer o) tr)) b
  ∧ fingerprint (run (run (deployed deployer o) tr) tr') b
    = fingerprint (run (deployed deployer o) tr) b.
Proof.
  intros Hcl.
  destruct (closed_run tr' (run (deployed deployer o) tr) b) as [Hb Hd];
    [apply well_formed_history|exact Hcl|].
  split; [exact Hb|]. split; [exact Hd|]. unfold fingerprint. rewrite Hd. reflexivity.
Qed.

(** X15: a batch closed while empty is stranded: in every later state its
    analysis cannot be requested by anyone. *)
Theorem empty_closed_batch_is_stranded deployer o tr tr' e b :
  closed (rd zeroBatch (batches (run (deployed deployer o) tr)) b) = true →
  totalEncryptedDataPoints (rd zeroBatch (batches (run (deployed deployer o) tr)) b) = 0 →
  succeeded (exec e (RequestBatchAnalysis b) (run (run (deployed deployer o) tr) tr')) = false.
Proof.
  intros Hcl Hz.
  destruct (closed_run tr' (run (deployed deployer o) tr) b) as [Hb _];
    [apply well_formed_history|exact Hcl|].
  rewrite exec_requestBatchAnalysis. cbv zeta. rewrite Hb, Hz. cbn [N.eqb].
  repeat case_match; reflexivity.
Qed.

(** What a single call can do to the batches below the current one. *)
Lemma superseded_step e c s b :
  b < currentBatchId s →
  b < currentBatchId (step e c s)
  ∧ rd [] (batchEncryptedData (step e c s)) b = rd [] (batchEncryptedData s) b
  ∧ totalEncryptedDataPoints (rd zeroBatch (batches (step e c s)) b)
    = totalEncryptedDataPoints (rd zeroBatch (batches s) b).
Proof.
  intros Hb. unfold step.
  destruct c;
    [rewrite exec_transferOwnership|rewrite exec_addProvider|rewrite exec_removeProvider
    |rewrite exec_setPaused|rewrite exec_setCooldownSeconds|rewrite exec_openBatch
    |rewrite exec_closeBatch|rewrite exec_submitEncryptedData
    |rewrite exec_requestBatchAnalysis|rewrite exec_myCallback];
    cbv zeta; repeat case_match; simplify_eq;
    try (repeat split; first [exact Hb|reflexivity]);
    try (revert Hb; destruct s; storage_cbn; intros Hb;
         repeat split; first [exact Hb|reflexivity]).
  - revert Hb. destruct s. storage_cbn. intros Hb.
    rewrite rd_insert. destruct (decide _); [lia|]. repeat split; try reflexivity. lia.
  - revert Hb. destruct s. storage_cbn. intros Hb.
    rewrite rd_insert. destruct (decide _) as [->|Hne]; repeat split; try reflexivity; exact Hb.
  - destruct (submitted_fields e a b0 c s) as (_ & _ & _ & _ & -> & _ & -> & ->).
    rewrite !rd_insert. repeat (destruct (decide _); [lia|]).
    repeat split; first [exact Hb|reflexivity].
Qed.

(** X3: the records of a batch that is no longer the current one never
    change again, whether or not it was closed: submissions only ever reach
    the current batch, and [currentBatchId] never decreases. *)
Theorem superseded_batch_is_frozen tr : ∀ s b,
  b < currentBatchId s →
  b < currentBatchId (run s tr)
  ∧ rd [] (batchEncryptedData (run s tr)) b = rd [] (batchEncryptedData s) b
  ∧ totalEncryptedDataPoints (rd zeroBatch (batches (run s tr)) b)
    = totalEncryptedDataPoints (rd zeroBatch (batches s) b).
Proof.
  induction tr as [|[e c] tr IH]; intros s b Hb; [repeat split; auto|].
  cbn [run]. destruct (superseded_step e c s b Hb) as (Hb' & Hd & Ht).
  destruct (IH (step e c s) b Hb') as (Hb'' & Hd' & Ht').
  rewrite Hd', Ht', Hd, Ht. repeat split; auto.
Qed.

End Frozen.

(** ** Requests and callbacks along a history *)

Section Correlation.
Context {X : External}.

(** X6: in a state reached from deployment, a callback for a request id
    whose context is stored never reverts with [StateMismatch]: the stored
    fingerprint is that of a closed, hence frozen, batch.  The callback is a
    replay, a bad proof, or a completion. *)
Theorem stored_context_never_mismatches deployer o tr e requestId cleartexts proof ctx :
  decryptionContexts (run (deployed deployer o) tr) !! requestId = Some ctx →
  exec e (MyCallback requestId cleartexts proof) (run (deployed deployer o) tr)
  = if processed ctx then Reverted ReplayAttempt
    else if negb (checkSignatures (fhe (run (deployed deployer o) tr))
                    requestId cleartexts proof)
         then Reverted InvalidProof
    else Success (complete requestId (run (deployed deployer o) tr))
           [DecryptionCompleted requestId (batchId ctx) (decoded_results e cleartexts)].
Proof.
  intros Hctx.
  destruct (well_formed_history deployer o tr) as (_ & _ & _ & _ & W5).
  assert (Hrd : rd zeroContext (decryptionContexts (run (deployed deployer o) tr)) requestId
                = ctx) by (unfold rd; rewrite Hctx; reflexivity).
  rewrite exec_myCallback. cbv zeta. rewrite Hrd.
  destruct (W5 _ _ Hctx) as [Hp|(_ & _ & Hh)].
  - rewrite Hp. reflexivity.
  - destruct (processed ctx); [reflexivity|].
    rewrite Hh, N.eqb_refl. reflexivity.
Qed.

(** X7: a request id that was never issued is not rejected as such: its
    context reads as the zero context, so the callback compares the
    fingerprint of batch 0 with the zero hash.  It reverts with
    [StateMismatch] when that fingerprint is not zero; were it zero, the
    callback would go on to the proof check and complete for batch 0. *)
Theorem callback_for_unknown_request e requestId cleartexts proof s :
  decryptionContexts s !! requestId = None →
  (fingerprint s 0 ≠ 0 →
   exec e (MyCallback requestId cleartexts proof) s = Reverted StateMismatch)
  ∧ (fingerprint s 0 = 0 →
     exec e (MyCallback requestId cleartexts proof) s
     = if negb (checkSignatures (fhe s) requestId cleartexts proof)
       then Reverted InvalidProof
       else Success (complete requestId s)
              [DecryptionCompleted requestId 0 (decoded_results e cleartexts)]).
Proof.
  intros Hnone.
  assert (Hrd : rd zeroContext (decryptionContexts s) requestId = zeroContext)
    by (unfold rd; rewrite Hnone; reflexivity).
  rewrite exec_myCallback. cbv zeta. rewrite Hrd.
  cbn [zeroContext processed batchId stateHash].
  split.
  - intros Hne. apply N.eqb_neq in Hne. rewrite Hne. reflexivity.
  - intros Heq. rewrite Heq. reflexivity.
Qed.

Lemma requested_fields e b s :
  owner (requested e b s) = owner s
  ∧ isProvider (requested e b s) = isProvider s
  ∧ paused (requested e b s) = paused s
  ∧ cooldownSeconds (requested e b s) = cooldownSeconds s
  ∧ lastSubmissionTime (requested e b s) = lastSubmissionTime s
  ∧ currentBatchId (requested e b s) = currentBatchId s
  ∧ batches (requested e b s) = batches s
  ∧ batchEncryptedData (requested e b s) = batchEncryptedData s.
Proof. unfold requested. destruct s. repeat split; reflexivity. Qed.

Lemma complete_fields requestId s :
  owner (complete requestId s) = owner s
  ∧ isProvider (complete requestId s) = isProvider s
  ∧ paused (complete requestId s) = paused s
  ∧ cooldownSeconds (complete requestId s) = cooldownSeconds s
  ∧ lastSubmissionTime (complete requestId s) = lastSubmissionTime s
  ∧ lastDecryptionRequestTime (complete requestId s) = lastDecryptionRequestTime s
  ∧ currentBatchId (complete requestId s) = currentBatchId s
  ∧ batches (complete requestId s) = batches s
  ∧ batchEncryptedData (complete requestId s) = batchEncryptedData s
  ∧ fhe (complete requestId s) = fhe s.
Proof. unfold complete. destruct s. repeat split; reflexivity. Qed.

(** X10: request and callback compose.  Right after an accepted
    [requestBatchAnalysis], a callback carrying the issued id and a proof the
    library accepts completes once, reporting the requested batch; a callback
    with a rejected proof reverts with [InvalidProof] and leaves the request
    pending; and after the completion every further callback with that id is
    a replay. *)
Theorem request_then_callback e e' e'' b s cleartexts proof cleartexts' proof' :
  succeeded (exec e (RequestBatchAnalysis b) s) = true →
  let s1 := step e (RequestBatchAnalysis b) s in
  let requestId := issued_requestId s b in
  rd zeroContext (decryptionContexts s1) requestId = mkContext b (fingerprint s b) false
  ∧ (checkSignatures (fhe s1) requestId cleartexts proof = true →
     exec e' (MyCallback requestId cleartexts proof) s1
     = Success (complete requestId s1)
         [DecryptionCompleted requestId b (decoded_results e' cleartexts)]
     ∧ exec e'' (MyCallback requestId cleartexts' proof') (complete requestId s1)
       = Reverted ReplayAttempt)
  ∧ (checkSignatures (fhe s1) requestId cleartexts proof = false →
     exec e' (MyCallback requestId cleartexts proof) s1 = Reverted InvalidProof
     ∧ step e' (MyCallback requestId cleartexts proof) s1 = s1).
Proof.
  intros Hok. cbv zeta.
  assert (Hs1 : step e (RequestBatchAnalysis b) s = requested e b s).
  { revert Hok. unfold step. rewrite exec_requestBatchAnalysis. cbv zeta.
    repeat case_match; simplify_eq; try discriminate; reflexivity. }
  rewrite Hs1. pose proof (requested_context e b s) as Hctx.
  assert (Hf : fingerprint (requested e b s) b = fingerprint s b).
  { apply fingerprint_frame. apply (requested_fields e b s). }
  split; [exact Hctx|]. split.
  - intros Hsig. split.
    + rewrite exec_myCallback. cbv zeta. rewrite Hctx. cbn [processed batchId stateHash].
      rewrite Hf, N.eqb_refl, Hsig. reflexivity.
    + rewrite exec_myCallback. cbv zeta. rewrite complete_processed. reflexivity.
  - intros Hsig.
    assert (Hx : exec e' (MyCallback (issued_requestId s b) cleartexts proof)
                   (requested e b s) = Reverted InvalidProof).
    { rewrite exec_myCallback. cbv zeta. rewrite Hctx. cbn [processed batchId stateHash].
      rewrite Hf, N.eqb_refl, Hsig. reflexivity. }
    split; [exact Hx|]. unfold step. rewrite Hx. reflexivity.
Qed.

(** X14: a callback touches nothing but the context of its own request id:
    owner, providers, pause flag, cooldown, timestamps, batches, records, the
    library state and every other context are as before. *)
Theorem callback_only_touches_its_context e requestId cleartexts proof s other :
  let s' := step e (MyCallback requestId cleartexts proof) s in
  owner s' = owner s
  ∧ isProvider s' = isProvider s
  ∧ paused s' = paused s
  ∧ cooldownSeconds s' = cooldownSeconds s
  ∧ lastSubmissionTime s' = lastSubmissionTime s
  ∧ lastDecryptionRequestTime s' = lastDecryptionRequestTime s
  ∧ currentBatchId s' = currentBatchId s
  ∧ batches s' = batches s
  ∧ batchEncryptedData s' = batchEncryptedData s
  ∧ fhe s' = fhe s
  ∧ (other ≠ requestId → decryptionContexts s' !! other = decryptionContexts s !! other)
  ∧ batchId (rd zeroContext (decryptionContexts s') requestId)
    = batchId (rd zeroContext (decryptionContexts s) requestId)
  ∧ stateHash (rd zeroContext (decryptionContexts s') requestId)
    = stateHash (rd zeroContext (decryptionContexts s) requestId).
Proof.
  cbv zeta. unfold step. rewrite exec_myCallback. cbv zeta.
  repeat case_match; simplify_eq; try (repeat split; reflexivity).
  destruct (complete_fields requestId s)
    as (-> & -> & -> & -> & -> & -> & -> & -> & -> & ->).
  repeat split; try reflexivity.
  - intros Hne. unfold complete. destruct s. storage_cbn.
    apply lookup_insert_ne. congruence.
  - unfold complete, rd. destruct s. storage_cbn. rewrite lookup_insert_eq. reflexivity.
  - unfold complete, rd. destruct s. storage_cbn. rewrite lookup_insert_eq. reflexivity.
Qed.

End Correlation.

(** ** Authority, pause and the batch life cycle *)

Section Authority.
Context {X : External}.

Lemma owner_only_rejects e c s :
  is_owner_only c = true → msg_sender e ≠ owner s → exec e c s = Reverted NotOwner.
Proof.
  intros Hc Hne. apply N.eqb_neq in Hne.
  destruct c; try discriminate Hc;
    [rewrite exec_transferOwnership|rewrite exec_addProvider|rewrite exec_removeProvider
    |rewrite exec_setPaused|rewrite exec_setCooldownSeconds|rewrite exec_openBatch
    |rewrite exec_closeBatch|rewrite exec_requestBatchAnalysis];
    cbv zeta; rewrite Hne; reflexivity.
Qed.

(** X1: [transferOwnership] by the owner is accepted for every new owner
    (the zero address and the owner itself included), changes the owner and
    nothing else, and hands over control at once: from then on every
    owner-only call by anyone but the new owner reverts with [NotOwner]. *)
Theorem transferOwnership_hands_over e e' c newOwner s :
  msg_sender e = owner s →
  let s' := step e (TransferOwnership newOwner) s in
  exec e (TransferOwnership newOwner) s
  = Success (set_owner newOwner s) [OwnershipTransferred (owner s) newOwner]
  ∧ s' = set_owner newOwner s
  ∧ owner s' = newOwner
  ∧ (isProvider s' = isProvider s ∧ paused s' = paused s
     ∧ cooldownSeconds s' = cooldownSeconds s ∧ currentBatchId s' = currentBatchId s
     ∧ batches s' = batches s ∧ batchEncryptedData s' = batchEncryptedData s
     ∧ decryptionContexts s' = decryptionContexts s)
  ∧ (is_owner_only c = true → msg_sender e' ≠ newOwner → exec e' c s' = Reverted NotOwner).
Proof.
  intros Ho. cbv zeta. apply N.eqb_eq in Ho.
  assert (Hx : exec e (TransferOwnership newOwner) s
               = Success (set_owner newOwner s) [OwnershipTransferred (owner s) newOwner])
    by (rewrite exec_transferOwnership, Ho; reflexivity).
  assert (Hs : step e (TransferOwnership newOwner) s = set_owner newOwner s)
    by (unfold step; rewrite Hx; reflexivity).
  rewrite Hs. split; [exact Hx|]. split; [reflexivity|].
  split; [destruct s; reflexivity|]. split; [destruct s; repeat split; reflexivity|].
  intros Hc Hne. apply owner_only_rejects; [exact Hc|]. destruct s. exact Hne.
Qed.

(** X2: [setCooldownSeconds] by the owner is accepted whether or not the
    contract is paused and emits [CooldownSecondsSet] even when the value
    does not change; the new window applies at once to the times already
    recorded: a provider who passes the other gates is then rejected with
    [CooldownActive] exactly when [now] is below its last submission time
    plus the new value (that sum fitting in a [uint256]). *)
Theorem cooldown_change_applies_at_once e e' n a b c s :
  msg_sender e = owner s →
  rd false (isProvider s) (msg_sender e') = true →
  paused s = false →
  rd 0 (lastSubmissionTime s) (msg_sender e') + n ≤ UINT256_MAX →
  let s' := step e (SetCooldownSeconds n) s in
  (∀ flag, exec e (SetCooldownSeconds n) (set_paused flag s)
           = Success (set_cooldownSeconds n (set_paused flag s))
               [CooldownSecondsSet (cooldownSeconds s) n])
  ∧ s' = set_cooldownSeconds n s
  ∧ (n = cooldownSeconds s → s' = s)
  ∧ (exec e' (SubmitEncryptedData a b c) s' = Reverted CooldownActive
     ↔ block_timestamp e' < rd 0 (lastSubmissionTime s) (msg_sender e') + n).
Proof.
  intros Ho Hp Hnp Hfit. cbv zeta. apply N.eqb_eq in Ho.
  assert (Hs : step e (SetCooldownSeconds n) s = set_cooldownSeconds n s)
    by (unfold step; rewrite exec_setCooldownSeconds, Ho; reflexivity).
  rewrite Hs. split; [|split; [reflexivity|split]].
  - intros flag. rewrite exec_setCooldownSeconds.
    destruct s. revert Ho. storage_cbn. intros ->. reflexivity.
  - intros ->. destruct s. reflexivity.
  - rewrite exec_submitEncryptedData. cbv zeta.
    revert Hp Hnp Hfit. destruct s. storage_cbn. intros -> -> Hfit. cbn [negb].
    apply N.leb_le in Hfit. rewrite Hfit. cbn [negb].
    destruct (N.ltb_spec (block_timestamp e') (rd 0 lastSubmissionTime0 (msg_sender e') + n))
      as [Hlt|Hge]; [tauto|].
    split; [|lia]. repeat case_match; discriminate.
Qed.

(** X4: for the owner of an unpaused contract, [closeBatch] reverts with
    [InvalidBatchId] exactly when the id is 0, exceeds [currentBatchId] or
    names a batch already closed; otherwise it sets [closed], keeps the count
    (reporting it in [BatchClosed]) and leaves every other batch alone.  The
    batch need be neither current nor non-empty, and a second [closeBatch] of
    the same id reverts. *)
Theorem closeBatch_spec e e' b s :
  msg_sender e = owner s →
  msg_sender e' = owner s →
  paused s = false →
  let batch := rd zeroBatch (batches s) b in
  let invalid := b = 0 ∨ currentBatchId s < b ∨ closed batch = true in
  let s' := step e (CloseBatch b) s in
  (exec e (CloseBatch b) s = Reverted InvalidBatchId ↔ invalid)
  ∧ (¬ invalid →
     emitted (exec e (CloseBatch b) s) = [BatchClosed b (totalEncryptedDataPoints batch)]
     ∧ rd zeroBatch (batches s') b
       = mkBatch (id batch) (totalEncryptedDataPoints batch) true
     ∧ (∀ b', b' ≠ b → batches s' !! b' = batches s !! b')
     ∧ batchEncryptedData s' = batchEncryptedData s
     ∧ currentBatchId s' = currentBatchId s)
  ∧ exec e' (CloseBatch b) s' = Reverted InvalidBatchId.
Proof.
  intros Ho Ho' Hnp. cbv zeta. apply N.eqb_eq in Ho, Ho'.
  unfold step. rewrite !exec_closeBatch. cbv zeta. rewrite Ho, Hnp. cbn [negb].
  destruct (N.eqb_spec b 0) as [Hb|Hb]; cbn [orb].
  { split; [tauto|]. split; [tauto|]. rewrite Ho', Hnp. reflexivity. }
  destruct (N.ltb_spec (currentBatchId s) b) as [Hc|Hc]; cbn [orb].
  { split; [tauto|]. split; [tauto|]. rewrite Ho', Hnp.
    apply N.ltb_lt in Hc. rewrite Hc. reflexivity. }
  destruct (closed (rd zeroBatch (batches s) b)) eqn:Hcl; cbn [orb].
  { split; [tauto|]. split; [tauto|]. rewrite Ho', Hnp, Hcl.
    apply N.ltb_ge in Hc. rewrite Hc. reflexivity. }
  split; [|split].
  - split; [discriminate|]. intros [?|[?|?]]; [lia|lia|discriminate].
  - intros _. cbn [emitted]. destruct s. storage_cbn.
    rewrite rd_insert. destruct (decide _); [|congruence].
    repeat split; try reflexivity. intros b' Hne. apply lookup_insert_ne. congruence.
  - revert Ho' Hnp. destruct s. storage_cbn. intros -> ->. cbn [negb].
    rewrite rd_insert. destruct (decide _); [|congruence]. cbn [closed].
    rewrite orb_true_r. reflexivity.
Qed.


(** X9: the authorisation state changes only at the owner's hand: when a
    call leaves [owner], the provider set, the pause flag or the cooldown
    different from what it was, the caller was the owner and the call was
    [transferOwnership], [addProvider], [removeProvider], [setPaused] or
    [setCooldownSeconds]. *)
Theorem authorisation_changes_only_by_owner e c s :
  let s' := step e c s in
  owner s' ≠ owner s ∨ isProvider s' ≠ isProvider s ∨ paused s' ≠ paused s
  ∨ cooldownSeconds s' ≠ cooldownSeconds s →
  msg_sender e = owner s
  ∧ (is_access_control c = true ∨ ∃ n, c = SetCooldownSeconds n).
Proof.
  cbv zeta. unfold step.
  destruct c;
    [rewrite exec_transferOwnership|rewrite exec_addProvider|rewrite exec_removeProvider
    |rewrite exec_setPaused|rewrite exec_setCooldownSeconds|rewrite exec_openBatch
    |rewrite exec_closeBatch|rewrite exec_submitEncryptedData
    |rewrite exec_requestBatchAnalysis|rewrite exec_myCallback];
    cbv zeta.
  1-5: destruct (N.eqb_spec (msg_sender e) (owner s)) as [Ho|Ho];
       [intros _; split; [exact Ho|]; first [left; reflexivity|right; eexists; reflexivity]
       |intros [H|[H|[H|H]]]; exfalso; apply H; reflexivity].
  all: repeat case_match; simplify_eq;
       intros [H|[H|[H|H]]]; exfalso; apply H; try reflexivity.
  all: try (destruct s; reflexivity).
  all: try (match goal with Hp : paused _ = false |- _ => revert Hp end;
            destruct s; storage_cbn; intros Hp; exact Hp).
  all: first [pose proof (submitted_fields e a b c s) as Hf
             |pose proof (requested_fields e batch s) as Hf
             |pose proof (complete_fields requestId s) as Hf];
       cbv zeta in Hf; destruct Hf as (? & ? & ? & ? & _); congruence.
Qed.

End Authority.

(** ** Batch numbering and the cooldown clocks *)

Section Numbering.
Context {X : External}.

Lemma currentBatchId_step e c s :
  currentBatchId (step e c s)
  = currentBatchId s + N.of_nat (if is_open c && succeeded (exec e c s) then 1 else 0).
Proof.
  unfold step.
  destruct c; cbn [is_open andb];
    [rewrite exec_transferOwnership|rewrite exec_addProvider|rewrite exec_removeProvider
    |rewrite exec_setPaused|rewrite exec_setCooldownSeconds|rewrite exec_openBatch
    |rewrite exec_closeBatch|rewrite exec_submitEncryptedData
    |rewrite exec_requestBatchAnalysis|rewrite exec_myCallback];
    cbv zeta; repeat case_match; simplify_eq; cbn [succeeded N.of_nat];
    try (rewrite N.add_0_r; reflexivity);
    try (destruct s; storage_cbn; cbn; lia).
Qed.

Lemma currentBatchId_run tr : ∀ s,
  currentBatchId (run s tr) = currentBatchId s + N.of_nat (accepted_opens s tr).
Proof.
  induction tr as [|[e c] tr IH]; intros s; [cbn; lia|].
  cbn [run accepted_opens]. rewrite IH, currentBatchId_step. lia.
Qed.

(** X12: after any history run from deployment, [currentBatchId] is the
    number of accepted [openBatch] calls; the batches numbered 1 to
    [currentBatchId] all exist and each carries its own id; nothing is stored
    above [currentBatchId]; and only batches in that range can be closed. *)
Theorem batches_are_numbered deployer o tr b :
  let s := run (deployed deployer o) tr in
  currentBatchId s = N.of_nat (accepted_opens (deployed deployer o) tr)
  ∧ (1 ≤ b ≤ currentBatchId s → ∃ batch, batches s !! b = Some batch ∧ id batch = b)
  ∧ (currentBatchId s < b → batches s !! b = None ∧ batchEncryptedData s !! b = None)
  ∧ (closed (rd zeroBatch (batches s) b) = true → 1 ≤ b ≤ currentBatchId s).
Proof.
  cbv zeta. pose proof (well_formed_history deployer o tr) as Hwf.
  split; [rewrite currentBatchId_run; reflexivity|].
  destruct Hwf as (W1 & W2 & W3 & W4 & W5).
  split; [|split].
  - intros Hb. destruct (W2 b Hb) as [batch Hbatch]. exists batch.
    split; [exact Hbatch|]. apply (W3 _ _ Hbatch).
  - apply W1.
  - apply closed_in_range. repeat split; auto; apply W1; auto.
Qed.

(** X13: the two cooldown clocks are kept per caller and per kind of
    action: a submission writes the caller's [lastSubmissionTime] and nothing
    else of either clock, a decryption request writes the caller's
    [lastDecryptionRequestTime] and nothing else, and no other call writes
    either clock. *)
Theorem cooldown_clocks_are_separate e c s other :
  let s' := step e c s in
  (other ≠ msg_sender e →
   lastSubmissionTime s' !! other = lastSubmissionTime s !! other
   ∧ lastDecryptionRequestTime s' !! other = lastDecryptionRequestTime s !! other)
  ∧ (is_submit c = true → lastDecryptionRequestTime s' = lastDecryptionRequestTime s)
  ∧ ((∃ b, c = RequestBatchAnalysis b) → lastSubmissionTime s' = lastSubmissionTime s)
  ∧ (is_submit c = false → (∀ b, c ≠ RequestBatchAnalysis b) →
     lastSubmissionTime s' = lastSubmissionTime s
     ∧ lastDecryptionRequestTime s' = lastDecryptionRequestTime s).
Proof.
  cbv zeta. unfold step.
  destruct c; cbn [is_submit];
    [rewrite exec_transferOwnership|rewrite exec_addProvider|rewrite exec_removeProvider
    |rewrite exec_setPaused|rewrite exec_setCooldownSeconds|rewrite exec_openBatch
    |rewrite exec_closeBatch|rewrite exec_submitEncryptedData
    |rewrite exec_requestBatchAnalysis|rewrite exec_myCallback];
    cbv zeta; repeat case_match; simplify_eq;
    try (repeat split; intros; reflexivity);
    try (destruct s; repeat split; intros; reflexivity).
  - (* an accepted submission *)
    unfold submitted. destruct s. storage_cbn.
    repeat split; intros; try reflexivity; try discriminate;
      try (apply lookup_insert_ne; congruence);
      try (match goal with H : ∃ _, _ |- _ => destruct H as [? ?]; discriminate end).
  - (* an accepted request *)
    unfold requested. destruct s. storage_cbn.
    repeat split; intros; try reflexivity; try discriminate;
      try (apply lookup_insert_ne; congruence);
      try (match goal with H : ∀ _, _ ≠ _ |- _ => exfalso; eapply H; reflexivity end).
Qed.

End Numbering.

(** ** Decoding the cleartexts *)

Section Decoding.

Lemma be_fold l : ∀ acc,
  fold_left (λ acc b, acc * 256 + Byte.to_N b) l acc
  = acc * 256 ^ N.of_nat (length l) + be_value l.
Proof.
  unfold be_value. induction l as [|b l IH]; intros acc.
  - cbn. lia.
  - cbn [fold_left length]. rewrite IH, (IH (0 * 256 + Byte.to_N b)).
    rewrite Nat2N.inj_succ, N.pow_succ_r'.
    generalize (256 ^ N.of_nat (length l)) (Byte.to_N b)
               (fold_left (λ acc b, acc * 256 + Byte.to_N b) l 0).
    intros. lia.
Qed.

Lemma be_value_app l k :
  be_value (l ++ k) = be_value l * 256 ^ N.of_nat (length k) + be_value k.
Proof. unfold be_value at 1. rewrite fold_left_app. apply be_fold. Qed.

Lemma be_value_bound l : be_value l < 256 ^ N.of_nat (length l).
Proof.
  induction l as [|b l IH] using rev_ind; [cbn; lia|].
  rewrite be_value_app, length_app, Nat.add_comm. cbn [length Nat.add].
  change (256 ^ N.of_nat 1) with 256.
  rewrite (Nat2N.inj_succ (length l)), N.pow_succ_r'.
  assert (Hb : be_value [b] = Byte.to_N b) by (cbn; lia).
  rewrite Hb. pose proof (Byte.to_N_bounded b) as Hle.
  revert IH Hle. generalize (256 ^ N.of_nat (length l)) (Byte.to_N b) (be_value l).
  intros. lia.
Qed.

Lemma be_bytes_length w : ∀ n, length (be_bytes w n) = w.
Proof.
  induction w as [|w IH]; intros n; [reflexivity|].
  cbn [be_bytes]. rewrite length_app, IH. cbn. lia.
Qed.

Lemma be_value_be_bytes w : ∀ n, be_value (be_bytes w n) = n mod 256 ^ N.of_nat w.
Proof.
  induction w as [|w IH]; intros n.
  - cbn. rewrite N.mod_1_r. reflexivity.
  - cbn [be_bytes]. rewrite be_value_app, IH. cbn [length].
    change (256 ^ N.of_nat 1) with 256.
    assert (Hb : be_value [default x00 (Byte.of_N (n mod 256))] = n mod 256).
    { assert (Hlt : n mod 256 < 256) by (apply N.mod_lt; lia).
      destruct (Byte.of_N (n mod 256)) as [b|] eqn:Hof.
      - apply Byte.to_of_N in Hof. cbn. lia.
      - apply Byte.of_N_None_iff in Hof. lia. }
    rewrite Hb, (Nat2N.inj_succ w), N.pow_succ_r', N.Div0.mod_mul_r. lia.
Qed.

Lemma mload_word pre w rest off :
  length pre = off → length w = 32%nat → mload (pre ++ w ++ rest) off = be_value w.
Proof.
  intros Hpre Hw. unfold mload.
  rewrite drop_app_length' by (symmetry; exact Hpre).
  rewrite <- app_assoc, take_app_length' by (symmetry; exact Hw). reflexivity.
Qed.

Lemma mload_bound mem off : mload mem off ≤ UINT256_MAX.
Proof.
  unfold mload. pose proof (be_value_bound (take 32 (drop off mem ++ replicate 32 x00))) as Hb.
  assert (Hlen : (length (take 32 (drop off mem ++ replicate 32 x00)) ≤ 32)%nat)
    by (rewrite length_take; lia).
  assert (Hpow : 256 ^ N.of_nat (length (take 32 (drop off mem ++ replicate 32 x00)))
                 ≤ 256 ^ 32) by (apply N.pow_le_mono_r; lia).
  assert (Hmax : 256 ^ 32 = UINT256_MAX + 1) by (vm_compute; reflexivity).
  lia.
Qed.

Lemma decoded_results_words e w1 w2 w3 rest :
  length w1 = 32%nat → length w2 = 32%nat → length w3 = 32%nat →
  decoded_results e (w1 ++ w2 ++ w3 ++ rest) = [be_value w1; be_value w2; be_value w3].
Proof.
  intros H1 H2 H3. unfold decoded_results. cbv zeta.
  set (hdr := be_bytes 32 (N.of_nat (length (w1 ++ w2 ++ w3 ++ rest)))).
  assert (Hh : length hdr = 32%nat) by apply be_bytes_length.
  f_equal; [|f_equal; [|f_equal]].
  - replace (hdr ++ (w1 ++ w2 ++ w3 ++ rest) ++ memory_tail e)
      with (hdr ++ w1 ++ (w2 ++ w3 ++ rest) ++ memory_tail e)
      by (repeat rewrite <- app_assoc; reflexivity).
    apply mload_word; assumption.
  - replace (hdr ++ (w1 ++ w2 ++ w3 ++ rest) ++ memory_tail e)
      with ((hdr ++ w1) ++ w2 ++ (w3 ++ rest) ++ memory_tail e)
      by (repeat rewrite <- app_assoc; reflexivity).
    apply mload_word; [rewrite length_app; lia|assumption].
  - replace (hdr ++ (w1 ++ w2 ++ w3 ++ rest) ++ memory_tail e)
      with ((hdr ++ w1 ++ w2) ++ w3 ++ rest ++ memory_tail e)
      by (repeat rewrite <- app_assoc; reflexivity).
    apply mload_word; [rewrite !length_app; lia|assumption].
Qed.

(** X11: the three results of a callback are [uint256] values; when
    [cleartexts] holds at least 96 bytes they are the big-endian values of
    its first three 32-byte words, whatever follows in the array or in
    memory; and three words laid out as [abi.encode] lays them out are read
    back unchanged. *)
Theorem decoded_results_spec e cleartexts a b c rest :
  Forall (λ r, r ≤ UINT256_MAX) (decoded_results e cleartexts)
  ∧ ((96 ≤ length cleartexts)%nat →
     decoded_results e cleartexts
     = [be_value (take 32 cleartexts);
        be_value (take 32 (drop 32 cleartexts));
        be_value (take 32 (drop 64 cleartexts))])
  ∧ (a ≤ UINT256_MAX → b ≤ UINT256_MAX → c ≤ UINT256_MAX →
     decoded_results e (encode_words a b c ++ rest) = [a; b; c]).
Proof.
  split; [|split].
  - unfold decoded_results. cbv zeta. repeat constructor; apply mload_bound.
  - intros Hlen.
    assert (Hsplit : cleartexts
                     = take 32 cleartexts ++ take 32 (drop 32 cleartexts)
                       ++ take 32 (drop 64 cleartexts) ++ drop 96 cleartexts).
    { rewrite <- (take_drop 32 cleartexts) at 1. f_equal.
      rewrite <- (take_drop 32 (drop 32 cleartexts)) at 1. f_equal.
      rewrite drop_drop. cbn [Nat.add].
      rewrite <- (take_drop 32 (drop 64 cleartexts)) at 1. f_equal.
      rewrite drop_drop. reflexivity. }
    rewrite Hsplit at 1. apply decoded_results_words;
      rewrite length_take, ?length_drop; lia.
  - intros Ha Hb Hc. unfold encode_words. rewrite <- !app_assoc.
    rewrite decoded_results_words by apply be_bytes_length.
    rewrite !be_value_be_bytes.
    assert (Hmax : 256 ^ N.of_nat 32 = UINT256_MAX + 1) by (vm_compute; reflexivity).
    rewrite Hmax, !N.mod_small by lia. reflexivity.
Qed.

End Decoding.

(** ** The further theorems at concrete inputs *)

Section FurtherInstances.
Import Demo Scenarios.
#[local] Existing Instance Demo.toy.

(** Alice hands the contract to Carol and is locked out. *)
Lemma transferOwnership_hands_over_witness :
  owner (step (at_time alice 100) (TransferOwnership carol) genesis) = carol
  ∧ exec (at_time alice 200) OpenBatch
      (step (at_time alice 100) (TransferOwnership carol) genesis)
    = Reverted NotOwner.
Proof.
  destruct (transferOwnership_hands_over (X := toy) (at_time alice 100) (at_time alice 200)
              OpenBatch carol genesis) as (_ & _ & Ho & _ & Hlock).
  - reflexivity.
  - split; [exact Ho|]. apply Hlock.
    + reflexivity.
    + vm_compute. discriminate.
Defined.

(** Bob submitted at 1000 with no cooldown; a cooldown of 60 set afterwards
    rejects him at 1030. *)
Lemma cooldown_change_applies_at_once_witness :
  exec (at_time bob 1030) (SubmitEncryptedData 8 9 10)
    (step (at_time alice 1010) (SetCooldownSeconds 60) batchless)
  = Reverted CooldownActive.
Proof.
  destruct (cooldown_change_applies_at_once (X := toy) (at_time alice 1010)
              (at_time bob 1030) 60 8 9 10 batchless) as (_ & _ & _ & Hiff).
  - reflexivity.
  - vm_compute. reflexivity.
  - reflexivity.
  - vm_compute. discriminate.
  - apply Hiff. vm_compute. reflexivity.
Defined.

(** Batch 1, superseded by batch 2, keeps its single record. *)
Lemma superseded_batch_is_frozen_witness :
  rd [] (batchEncryptedData (run superseded history_later)) 1
  = rd [] (batchEncryptedData superseded) 1.
Proof.
  destruct (superseded_batch_is_frozen (X := toy) history_later superseded 1)
    as (_ & Hd & _).
  - vm_compute. reflexivity.
  - exact Hd.
Defined.

(** Closing batch 1 of two records, then closing it again. *)
Lemma closeBatch_spec_witness :
  emitted (exec (at_time alice 130) (CloseBatch 1)
             (run genesis (take 4 history_closed)))
  = [BatchClosed 1 2]
  ∧ exec (at_time alice 135) (CloseBatch 1)
      (step (at_time alice 130) (CloseBatch 1) (run genesis (take 4 history_closed)))
    = Reverted InvalidBatchId.
Proof.
  destruct (closeBatch_spec (X := toy) (at_time alice 130) (at_time alice 135) 1
              (run genesis (take 4 history_closed))) as (_ & Hok & Hagain).
  - reflexivity.
  - reflexivity.
  - reflexivity.
  - split; [|exact Hagain].
    destruct Hok as (Hev & _); [|etransitivity; [exact Hev|vm_compute; reflexivity]].
    vm_compute. intros [H|[H|H]]; discriminate H.
Defined.

(** The closed batch 1 is the same after the request and the callback. *)
Lemma closed_batch_is_frozen_witness :
  fingerprint (run (run genesis history_closed)
                 [(at_time alice 140, RequestBatchAnalysis 1);
                  (at_time carol 150, MyCallback 7 answer [x01])]) 1
  = fingerprint (run genesis history_closed) 1.
Proof.
  destruct (closed_batch_is_frozen (X := toy) alice 7 history_closed
              [(at_time alice 140, RequestBatchAnalysis 1);
               (at_time carol 150, MyCallback 7 answer [x01])] 1) as (_ & _ & Hf).
  - vm_compute. reflexivity.
  - exact Hf.
Defined.

(** Request 7 is stored and pending: a bad proof is the only failure left. *)
Lemma stored_context_never_mismatches_witness :
  exec (at_time carol 150) (MyCallback 7 answer [x00]) pending = Reverted InvalidProof.
Proof.
  etransitivity;
    [apply (stored_context_never_mismatches (X := toy) alice 7 history_request
              (at_time carol 150) 7 answer [x00] context_7); vm_compute; reflexivity|].
  vm_compute. reflexivity.
Defined.

(** No request 3 was ever issued. *)
Lemma callback_for_unknown_request_witness :
  exec (at_time carol 150) (MyCallback 3 answer [x01]) pending = Reverted StateMismatch.
Proof.
  destruct (callback_for_unknown_request (X := toy) (at_time carol 150) 3 answer [x01]
              pending) as [Hne _].
  - vm_compute. reflexivity.
  - apply Hne. vm_compute. discriminate.
Defined.


(** Pausing changed the flag, so the caller was the owner. *)
Lemma authorisation_changes_only_by_owner_witness :
  msg_sender (at_time alice 100) = owner genesis.
Proof.
  destruct (authorisation_changes_only_by_owner (X := toy) (at_time alice 100)
              (SetPaused true) genesis) as [Ho _].
  - right. right. left. vm_compute. discriminate.
  - exact Ho.
Defined.

(** The request for batch 1 followed by the oracle's answer and a replay. *)
Lemma request_then_callback_witness :
  exec (at_time carol 150) (MyCallback 7 answer [x01]) pending
  = Success completed [DecryptionCompleted 7 1 [42; 0; 0]]
  ∧ exec (at_time carol 160) (MyCallback 7 answer [x01]) completed = Reverted ReplayAttempt.
Proof.
  destruct (request_then_callback (X := toy) (at_time alice 140) (at_time carol 150)
              (at_time carol 160) 1 closed_batch answer [x01] answer [x01])
    as (_ & Hok & _).
  - vm_compute. reflexivity.
  - destruct Hok as [H1 H2]; [vm_compute; reflexivity|].
    split; [etransitivity; [exact H1|vm_compute; reflexivity]|exact H2].
Defined.

(** The answer encodes 42, 0 and 0. *)
Lemma decoded_results_spec_witness :
  decoded_results (at_time carol 150) (encode_words 42 0 0) = [42; 0; 0].
Proof.
  destruct (decoded_results_spec (at_time carol 150) [] 42 0 0 []) as (_ & _ & Hrt).
  rewrite app_nil_r in Hrt. apply Hrt; vm_compute; discriminate.
Defined.

(** One batch was opened in the history of the request. *)
Lemma batches_are_numbered_witness :
  currentBatchId pending = 1
  ∧ ∃ batch, batches pending !! 1 = Some batch ∧ id batch = 1.
Proof.
  destruct (batches_are_numbered (X := toy) alice 7 history_request 1) as (Hc & Hb & _).
  split; [exact Hc|]. apply Hb. vm_compute. split; discriminate.
Defined.

(** Bob's submission leaves Alice's clocks alone. *)
Lemma cooldown_clocks_are_separate_witness :
  lastSubmissionTime (step (at_time bob 1000) (SubmitEncryptedData 5 6 7) rate_limited)
    !! alice
  = lastSubmissionTime rate_limited !! alice.
Proof.
  destruct (cooldown_clocks_are_separate (X := toy) (at_time bob 1000)
              (SubmitEncryptedData 5 6 7) rate_limited alice) as (Hother & _).
  apply Hother. vm_compute. discriminate.
Defined.

(** The callback for request 7 leaves an unrelated id unset. *)
Lemma callback_only_touches_its_context_witness :
  decryptionContexts (step (at_time carol 150) (MyCallback 7 answer [x01]) pending) !! 8
  = decryptionContexts pending !! 8.
Proof.
  destruct (callback_only_touches_its_context (X := toy) (at_time carol 150) 7 answer
              [x01] pending 8) as (_ & _ & _ & _ & _ & _ & _ & _ & _ & _ & Hother & _).
  apply Hother. discriminate.
Defined.

(** Batch 1, closed while empty, cannot be analysed later. *)
Lemma empty_closed_batch_is_stranded_witness :
  succeeded (exec (at_time alice 200) (RequestBatchAnalysis 1)
               (run empty_closed history_after)) = false.
Proof.
  apply (empty_closed_batch_is_stranded (X := toy) alice 7 history_empty_closed
           history_after (at_time alice 200) 1); vm_compute; reflexivity.
Defined.

End FurtherInstances.
